(** * Re-export discovery: [scripts/check_import_mappings.py]

    A shallow embedding of the analysis script that inspects the public
    [__init__.py] files of [langchain] and records which names they re-export
    from [langchain_core].

    Python dictionaries with string keys are finite maps ([gmap string _]),
    Python lists are lists, the closure variables mutated by the AST visitor
    are threaded as an explicit state, and exceptions are an error type.
    The interpreter and the operating system (pip, the file system, [ast.parse])
    are taken as a [World] of outcomes.  Console output ([print]) is not
    modelled, and neither are the removal of the temporary directory at the
    end of [main] and the exhaustion of the interpreter's resources
    ([RecursionError], [MemoryError]).

    The file also covers [get_latest_version], given the output of pip and
    [str.strip], and the loop of [reference/python/serve_subset.py] that
    selects the items of the navigation, given [str.lower]. *)

From Stdlib Require Import ZArith Ascii.
From stdpp Require Import gmap strings list fin_maps.

Set Warnings "-register-all".

(** ** Python values used by the script *)

(** [str.startswith]: [startswith s p] is Python's [s.startswith(p)]. *)
Definition startswith (s p : string) : bool := String.prefix p s.

(** Truth value of a string: the empty string is falsy. *)
Definition str_truthy (s : string) : bool :=
  match s with
  | EmptyString => false
  | String _ _ => true
  end.

(** The value carried by an [ast.Constant] node.  Floats and complex numbers
    are kept as the text of their literal. *)
Inductive constant : Type :=
  | CStr (s : string)
  | CBytes (b : string)
  | CInt (n : Z)
  | CFloat (lit : string)
  | CComplex (lit : string)
  | CBool (b : bool)
  | CNone
  | CEllipsis.

Global Instance constant_eq_dec : EqDecision constant.
Proof. solve_decision. Defined.

(** Expression nodes.  The script only tells [ast.Name], [ast.List] and
    [ast.Constant] apart; every other expression class is [OtherExpr], with the
    class name and the sub-expressions. *)
Inductive expr : Type :=
  | Name (id : string)
  | Constant (value : constant)
  | List_ (elts : list expr)
  | OtherExpr (cls : string) (args : list expr).

(** [ast.alias]: one imported name, with its optional [as] name. *)
Record alias : Type := Alias {
  alias_name : string;
  asname : option string;
}.

(** Statement nodes.  [ast.ImportFrom] and [ast.Assign] are the two classes
    the visitor has a method for.  Every other statement class is [OtherStmt]
    with the statements nested in it (directly, or through its exception
    handlers or match cases), in the order of the node's fields, which for
    every compound statement of Python is the order of the source text.
    Expressions hold no statements. *)
Inductive stmt : Type :=
  | ImportFrom (module : option string) (names : list alias) (level : nat)
  | Assign (targets : list expr) (value : expr)
  | OtherStmt (cls : string) (body : list stmt).

(** [ast.Module]. *)
Record Module_ : Type := Mod { mod_body : list stmt }.

(** ** The analysis of one file *)

(** The value stored for a local name:
    [{"module": ..., "original_name": ...}]. *)
Record import_info : Type := ImportInfo {
  module_ : string;
  original_name : string;
}.

Global Instance import_info_eq_dec : EqDecision import_info.
Proof. solve_decision. Defined.

(** The two variables of [analyze_init_file] that the visitor's methods
    update. *)
Record visitor_state : Type := VState {
  st_imports : gmap string import_info;   (* langchain_core_imports *)
  st_exports : list constant;             (* all_exports *)
}.

(** [name = alias.asname if alias.asname else alias.name] *)
Definition local_name (a : alias) : string :=
  match asname a with
  | Some n => if str_truthy n then n else alias_name a
  | None => alias_name a
  end.

(** [node.module and node.module.startswith("langchain_core")] *)
Definition from_core (module : option string) : bool :=
  match module with
  | Some m => str_truthy m && startswith m "langchain_core"
  | None => false
  end.

(** The body of the loop over [node.names]:
    [langchain_core_imports[name] = {...}]. *)
Definition record_alias (m : string) (imports : gmap string import_info)
    (a : alias) : gmap string import_info :=
  <[local_name a := ImportInfo m (alias_name a)]> imports.

Definition visit_ImportFrom (module : option string) (names : list alias)
    (st : visitor_state) : visitor_state :=
  match module with
  | Some m =>
      if from_core module
      then VState (fold_left (record_alias m) names (st_imports st))
                  (st_exports st)
      else st
  | None => st
  end.

(** [elt.value for elt in node.value.elts if isinstance(elt, ast.Constant)] *)
Fixpoint constant_values (elts : list expr) : list constant :=
  match elts with
  | [] => []
  | Constant v :: rest => v :: constant_values rest
  | _ :: rest => constant_values rest
  end.

(** The condition of [visit_Assign], for one target. *)
Definition is_all_target (target : expr) : bool :=
  match target with
  | Name id => String.eqb id "__all__"
  | _ => false
  end.

(** What one target of the assignment adds to [all_exports]. *)
Definition target_exports (value : expr) (target : expr) : list constant :=
  match value with
  | List_ elts => if is_all_target target then constant_values elts else []
  | _ => []
  end.

Definition visit_Assign (targets : list expr) (value : expr)
    (st : visitor_state) : visitor_state :=
  fold_left
    (fun st target =>
       VState (st_imports st)
              (st_exports st ++ target_exports value target))
    targets st.

(** [NodeVisitor.visit]: the class's own method for [ImportFrom] and
    [Assign] (neither calls [generic_visit]), and [generic_visit] for the rest,
    which visits the children in order. *)
Fixpoint visit (node : stmt) (st : visitor_state) : visitor_state :=
  match node with
  | ImportFrom module names _ => visit_ImportFrom module names st
  | Assign targets value => visit_Assign targets value st
  | OtherStmt _ body => fold_left (fun st child => visit child st) body st
  end.

Definition visit_all (body : list stmt) (st : visitor_state) : visitor_state :=
  fold_left (fun st child => visit child st) body st.

Definition visit_Module (tree : Module_) : visitor_state :=
  visit_all (mod_body tree) (VState ∅ []).

(** The loop that fills [exported_from_core].  A key of the import map is a
    string, so an export that is not a string is never found in it. *)
Definition add_export (imports : gmap string import_info)
    (exported : gmap string import_info) (export : constant)
    : gmap string import_info :=
  match export with
  | CStr s =>
      match imports !! s with
      | Some info => <[s := info]> exported
      | None => exported
      end
  | _ => exported
  end.

Definition find_exported (imports : gmap string import_info)
    (exports : list constant) : gmap string import_info :=
  fold_left (add_export imports) exports ∅.

(** ** Exceptions *)

Inductive exn : Type :=
  | OSError (msg : string)
  | SyntaxError (msg : string)
  | ValueError (msg : string)
  | TypeError (msg : string)
  | Exception_ (msg : string).

(** [str(e)] *)
Definition exn_str (e : exn) : string :=
  match e with
  | OSError msg | SyntaxError msg | ValueError msg
  | TypeError msg | Exception_ msg => msg
  end.

Inductive Result (A : Type) : Type :=
  | Ok (a : A)
  | Raise (e : exn).
Arguments Ok {A} a.
Arguments Raise {A} e.

Global Instance Result_bind : MBind Result := λ A B k r,
  match r with
  | Ok a => k a
  | Raise e => Raise e
  end.

Global Instance Result_ret : MRet Result := λ A a, Ok a.

(** What opening and reading a file can raise: [OSError] from [open], and
    [UnicodeDecodeError], a subclass of [ValueError], from [read]. *)
Inductive read_error : Type :=
  | ReadOSError (msg : string)
  | UnicodeDecodeError (msg : string).

(** What [ast.parse] raises on a text that is not a Python module. *)
Inductive parse_error : Type :=
  | ParseSyntaxError (msg : string)
  | ParseValueError (msg : string).

Definition exn_of_read_error (e : read_error) : exn :=
  match e with
  | ReadOSError msg => OSError msg
  | UnicodeDecodeError msg => ValueError msg
  end.

Definition exn_of_parse_error (e : parse_error) : exn :=
  match e with
  | ParseSyntaxError msg => SyntaxError msg
  | ParseValueError msg => ValueError msg
  end.

(** ** Paths *)

(** A path is the list of the names on it, from left to right.  An absolute
    path starts with the empty name, where [Path.parts] has the root ["/"],
    so that [path_str] writes it with a leading separator; the paths
    relative to a directory, which are those that [find_init_files] looks
    into, are their [Path.parts]. *)
Definition Path : Type := list string.

(** [str(path)], with the separator of POSIX. *)
Fixpoint path_str (p : Path) : string :=
  match p with
  | [] => "."
  | [part] => part
  | part :: rest => part +:+ "/" +:+ path_str rest
  end.

(** ** The world outside the script *)

Record World : Type := {
  (** the result of [get_latest_version], which goes through [pip index
      versions] and falls back to ["latest"] *)
  get_latest_version : string → string;
  (** [tempfile.TemporaryDirectory()] *)
  mkdtemp : exn + Path;
  (** [subprocess.run(pip_cmd, ...)]: return code and standard error *)
  pip_install : Path → list string → Z * string;
  (** [path.exists()] *)
  exists_ : Path → bool;
  (** [dir.rglob(pattern)]: the matches, each as its parts relative to [dir] *)
  rglob : Path → string → list Path;
  (** [open(encoding="utf-8")] followed by [read()] *)
  read_text : Path → read_error + string;
  (** [ast.parse] *)
  ast_parse : string → parse_error + Module_;
  (** [output_file.open("w")] *)
  open_write : Path → exn + unit;
  (** the writes that [json.dump] makes to the opened file, and the closing
      of the file at the end of the [with] block *)
  write_close : Path → exn + unit;
  (** [sys.get_int_max_str_digits()]: the number of decimal digits beyond
      which the interpreter refuses to convert an [int] to text (4300 unless
      configured); 0 when the interpreter has no such limit *)
  int_max_str_digits : nat;
}.

(** ** [install_packages] *)

Definition install_packages (w : World) (temp_dir : Path)
    (packages : list string) : Result unit :=
  let (returncode, stderr) := pip_install w temp_dir packages in
  if decide (returncode ≠ 0%Z)
  then Raise (Exception_ ("Failed to install packages: " +:+ stderr))
  else Ok tt.

(** ** [find_init_files] *)

(** [part.startswith("_") and part != "__init__.py"] *)
Definition private_part (part : string) : bool :=
  startswith part "_" && negb (String.eqb part "__init__.py").

(** [any(... for part in parts)] over [parts[:-1]] *)
Definition skipped (rel : Path) : bool :=
  existsb private_part (removelast rel).

Definition find_init_files (w : World) (package_path : Path) : list Path :=
  let langchain_dir := package_path ++ ["langchain"] in
  if negb (exists_ w langchain_dir)
  then []
  else
    map (fun rel => langchain_dir ++ rel)
        (filter (fun rel => skipped rel = false)
                (rglob w langchain_dir "__init__.py")).

(** ** [analyze_init_file] *)

Record ModuleAnalysis : Type := {
  file : string;
  error : option string;
  langchain_core_imports : gmap string import_info;
  all_exports : list constant;
  exported_from_core : gmap string import_info;
}.

(** The dictionary returned at the end of the [try] block. *)
Definition analysis_of_tree (init_file : Path) (tree : Module_)
    : ModuleAnalysis :=
  let st := visit_Module tree in
  {| file := path_str init_file;
     error := None;
     langchain_core_imports := st_imports st;
     all_exports := st_exports st;
     exported_from_core := find_exported (st_imports st) (st_exports st) |}.

(** The body of the [try] block. *)
Definition analyze_try (w : World) (init_file : Path) : Result ModuleAnalysis :=
  match read_text w init_file with
  | inl e => Raise (exn_of_read_error e)
  | inr content =>
      match ast_parse w content with
      | inl e => Raise (exn_of_parse_error e)
      | inr tree => Ok (analysis_of_tree init_file tree)
      end
  end.

(** [except (OSError, SyntaxError, ValueError) as e] *)
Definition caught (e : exn) : bool :=
  match e with
  | OSError _ | SyntaxError _ | ValueError _ => true
  | _ => false
  end.

Definition error_analysis (init_file : Path) (e : exn) : ModuleAnalysis :=
  {| file := path_str init_file;
     error := Some (exn_str e);
     langchain_core_imports := ∅;
     all_exports := [];
     exported_from_core := ∅ |}.

Definition analyze_init_file (w : World) (init_file : Path)
    : Result ModuleAnalysis :=
  match analyze_try w init_file with
  | Ok a => Ok a
  | Raise e => if caught e then Ok (error_analysis init_file e) else Raise e
  end.

(** ** [main] *)

Record Metadata : Type := {
  langchain_version : string;
  langchain_core_version : string;
  total_init_files : nat;
}.

Record Summary : Type := {
  total_langchain_core_reexports : nat;
  modules_with_core_reexports : nat;
}.

Record Report : Type := {
  metadata : Metadata;
  analysis : list ModuleAnalysis;
  summary : Summary;
}.

(** The loop [for init_file in init_files], appending to
    [results["analysis"]]. *)
Fixpoint analyze_files (w : World) (init_files : list Path)
    (acc : list ModuleAnalysis) : Result (list ModuleAnalysis) :=
  match init_files with
  | [] => Ok acc
  | init_file :: rest =>
      a ← analyze_init_file w init_file;
      analyze_files w rest (acc ++ [a])
  end.

(** The body of the loop over [results["analysis"]], on the pair
    [(total_core_exports, modules_with_core_exports)].  A dictionary is
    truthy when it is not empty. *)
Definition count_exports (acc : nat * nat) (a : ModuleAnalysis) : nat * nat :=
  if decide (exported_from_core a = ∅)
  then acc
  else (fst acc + size (exported_from_core a), snd acc + 1).

Definition summarize (analysis : list ModuleAnalysis) : Summary :=
  let acc := fold_left count_exports analysis (0, 0) in
  {| total_langchain_core_reexports := fst acc;
     modules_with_core_reexports := snd acc |}.

(** An [int] that the interpreter converts to decimal text: one of at most
    [max_digits] digits, or any when there is no limit. *)
Definition int_within_limit (max_digits : nat) (n : Z) : bool :=
  match max_digits with
  | O => true
  | S _ => (Z.abs n <? 10 ^ Z.of_nat max_digits)%Z
  end.

(** The values [json.dump] can write.  Of the values of a constant, [bytes],
    complex numbers and [Ellipsis] make it raise [TypeError], and an [int]
    beyond the limit of digits makes it raise [ValueError]. *)
Definition json_serializable (max_digits : nat) (c : constant) : bool :=
  match c with
  | CStr _ | CFloat _ | CBool _ | CNone => true
  | CInt n => int_within_limit max_digits n
  | CBytes _ | CComplex _ | CEllipsis => false
  end.

(** The exception that the encoder of [json.dump] raises on a report: that
    of the first value it cannot write.  The file names, the error strings,
    the import dictionaries and the counters are strings and small numbers;
    only an element of an [all_exports] list can be such a value. *)
Definition encode_error (max_digits : nat) (results : Report) : option exn :=
  match List.find (fun c => negb (json_serializable max_digits c))
                  (concat (map all_exports (analysis results))) with
  | Some (CInt _) =>
      Some (ValueError "Exceeds the limit for integer string conversion")
  | Some _ => Some (TypeError "Object is not JSON serializable")
  | None => None
  end.

(** [with output_file.open("w") as f: json.dump(results, f, indent=2)].
    An [OSError] of a write or of the closing of the file is the exception
    that leaves the block, also when the encoder has raised before the
    file is closed. *)
Definition json_dump (w : World) (results : Report) : Result unit :=
  match open_write w ["import_mappings.json"] with
  | inl e => Raise e
  | inr _ =>
      match write_close w ["import_mappings.json"] with
      | inl e => Raise e
      | inr _ =>
          match encode_error (int_max_str_digits w) results with
          | Some e => Raise e
          | None => Ok tt
          end
      end
  end.

Definition main (w : World) : Result Report :=
  let langchain_version := get_latest_version w "langchain" in
  let langchain_core_version := get_latest_version w "langchain_core" in
  temp_path ← match mkdtemp w with inl e => Raise e | inr p => Ok p end;
  _ ← install_packages w temp_path ["langchain"; "langchain_core"];
  let init_files := find_init_files w temp_path in
  analysis ← analyze_files w init_files [];
  let results :=
    {| metadata :=
         {| langchain_version := langchain_version;
            langchain_core_version := langchain_core_version;
            total_init_files := length init_files |};
       analysis := analysis;
       summary := summarize analysis |} in
  _ ← json_dump w results;
  Ok results.


(** ** Source-order views of a module

    The bindings and the export items of a module, listed in the order of the
    source text.  They are what the claims speak about; the lemmas below
    relate the visitor to them. *)

(** The binding made for one imported name. *)
Definition alias_binding (m : string) (a : alias) : string * import_info :=
  (local_name a, ImportInfo m (alias_name a)).

(** The bindings made by the import-from statements that pass the test of
    [visit_ImportFrom], in source order. *)
Fixpoint import_bindings (node : stmt) : list (string * import_info) :=
  match node with
  | ImportFrom (Some m) names _ =>
      if from_core (Some m) then map (alias_binding m) names else []
  | ImportFrom None _ _ => []
  | Assign _ _ => []
  | OtherStmt _ body => concat (map import_bindings body)
  end.

Definition module_bindings (tree : Module_) : list (string * import_info) :=
  concat (map import_bindings (mod_body tree)).

(** The lists assigned to [__all__], one per [__all__] target, in source
    order. *)
Fixpoint all_assignments (node : stmt) : list (list expr) :=
  match node with
  | ImportFrom _ _ _ => []
  | Assign targets (List_ elts) =>
      map (fun _ => elts) (filter (fun t => is_all_target t = true) targets)
  | Assign _ _ => []
  | OtherStmt _ body => concat (map all_assignments body)
  end.

Definition module_all_assignments (tree : Module_) : list (list expr) :=
  concat (map all_assignments (mod_body tree)).

(** The elements of a list display that are literal strings. *)
Fixpoint string_elements (elts : list expr) : list string :=
  match elts with
  | [] => []
  | Constant (CStr s) :: rest => s :: string_elements rest
  | _ :: rest => string_elements rest
  end.

(** The strings among the extracted exports. *)
Fixpoint strings_of (cs : list constant) : list string :=
  match cs with
  | [] => []
  | CStr s :: rest => s :: strings_of rest
  | _ :: rest => strings_of rest
  end.

(** The value bound to [k] by the last pair for [k] in a list of bindings. *)
Fixpoint last_binding (k : string) (bs : list (string * import_info))
    : option import_info :=
  match bs with
  | [] => None
  | (k', v) :: rest =>
      match last_binding k rest with
      | Some v' => Some v'
      | None => if decide (k' = k) then Some v else None
      end
  end.

(** The matching rule that the documentation describes: the module is the
    package itself or lies under it. *)
Definition in_package (pkg m : string) : bool :=
  String.eqb m pkg || startswith m (pkg +:+ ".").

(** ** Definitions used in the statements and sample inputs *)

(** Applying a list of bindings to a dictionary, in order. *)
Definition bind_all (bs : list (string * import_info))
    (imports : gmap string import_info) : gmap string import_info :=
  fold_left (fun m kv => <[kv.1 := kv.2]> m) bs imports.

(** The dictionary that [analyze_init_file] returns for a file, by the
    outcome of reading and parsing it. *)
Definition analysis_result (w : World) (init_file : Path) : ModuleAnalysis :=
  match read_text w init_file with
  | inl e => error_analysis init_file (exn_of_read_error e)
  | inr content =>
      match ast_parse w content with
      | inl e => error_analysis init_file (exn_of_parse_error e)
      | inr tree => analysis_of_tree init_file tree
      end
  end.

(** [from langchain_core.chains import LLMChain as Chain]
    [__all__ = ["Chain", "Other"]] *)
Definition chains_init : Module_ :=
  Mod [ ImportFrom (Some "langchain_core.chains")
          [Alias "LLMChain" (Some "Chain")] 0;
        Assign [Name "__all__"]
          (List_ [Constant (CStr "Chain"); Constant (CStr "Other")]) ].

(** [from langchain_core.messages import AIMessage as Message, BaseMessage]
    [from . import helpers]
    [if TYPE_CHECKING:]
    [    from langchain_core.prompts import PromptTemplate as Message]
    [__all__ = ["Message"]]
    [__all__ = ["BaseMessage", helper()]] *)
Definition shadowing_init : Module_ :=
  Mod [ ImportFrom (Some "langchain_core.messages")
          [Alias "AIMessage" (Some "Message"); Alias "BaseMessage" None] 0;
        ImportFrom None [Alias "helpers" None] 1;
        OtherStmt "If"
          [ ImportFrom (Some "langchain_core.prompts")
              [Alias "PromptTemplate" (Some "Message")] 0 ];
        Assign [Name "__all__"] (List_ [Constant (CStr "Message")]);
        Assign [Name "__all__"]
          (List_ [Constant (CStr "BaseMessage");
                  OtherExpr "Call" [Name "helper"]]) ].

(** A world in which the packages install, [langchain] has four
    [__init__.py] files, one of them under a private directory and one with
    a syntax error.  The text of a file is named after its path. *)
Definition sample_world : World :=
  {| get_latest_version := fun _ => "1.0.0";
     mkdtemp := inr ["tmp"];
     pip_install := fun _ _ => (0%Z, EmptyString);
     exists_ := fun _ => true;
     rglob := fun _ _ =>
       [ ["__init__.py"];
         ["chains"; "__init__.py"];
         ["_api"; "__init__.py"];
         ["broken"; "__init__.py"] ];
     read_text := fun p => inr (path_str p);
     ast_parse := fun content =>
       if String.eqb content "tmp/langchain/__init__.py"
       then inr shadowing_init
       else if String.eqb content "tmp/langchain/chains/__init__.py"
       then inr chains_init
       else inl (ParseSyntaxError "invalid syntax (<unknown>, line 1)");
     open_write := fun _ => inr tt;
     write_close := fun _ => inr tt;
     int_max_str_digits := 4300 |}.

(** The analyses without an error. *)
Definition succeeded (analysis : list ModuleAnalysis) : list ModuleAnalysis :=
  filter (fun a => error a = None) analysis.

(** The number of re-exports of a list of analyses. *)
Definition reexport_total (analysis : list ModuleAnalysis) : nat :=
  sum_list (map (fun a => size (exported_from_core a)) analysis).

(** The number of analyses with at least one re-export. *)
Definition reexporting_modules (analysis : list ModuleAnalysis) : nat :=
  length (filter (fun a => exported_from_core a ≠ ∅) analysis).

(** A world whose [langchain] has a directory that is itself called
    [__init__.py], with an [__init__.py] file in it.  The pattern matches
    the directory as well as the file; the directory cannot be read. *)
Definition nested_world : World :=
  {| get_latest_version := fun _ => "latest";
     mkdtemp := inr ["tmp"];
     pip_install := fun _ _ => (0%Z, EmptyString);
     exists_ := fun _ => true;
     rglob := fun _ _ => [ ["__init__.py"]; ["__init__.py"; "__init__.py"] ];
     read_text := fun p =>
       if decide (p = ["tmp"; "langchain"; "__init__.py"])
       then inl (ReadOSError "[Errno 21] Is a directory")
       else inr EmptyString;
     ast_parse := fun _ => inr (Mod []);
     open_write := fun _ => inr tt;
     write_close := fun _ => inr tt;
     int_max_str_digits := 4300 |}.



(** A world in which the packages install and [langchain] is missing from
    the directory they were installed in. *)
Definition missing_world : World :=
  {| get_latest_version := fun _ => "latest";
     mkdtemp := inr ["tmp"];
     pip_install := fun _ _ => (0%Z, EmptyString);
     exists_ := fun _ => false;
     rglob := fun _ _ => [];
     read_text := fun _ => inl (ReadOSError "No such file or directory");
     ast_parse := fun _ => inr (Mod []);
     open_write := fun _ => inr tt;
     write_close := fun _ => inr tt;
     int_max_str_digits := 4300 |}.

(** [from langchain_corex.foo import Bar] *)
Definition sibling_import : stmt :=
  ImportFrom (Some "langchain_corex.foo") [Alias "Bar" None] 0.

(** [__all__ = ["a"]]
    [__all__ = [1, "b"]] *)
Definition extended_all_init : Module_ :=
  Mod [ Assign [Name "__all__"] (List_ [Constant (CStr "a")]);
        Assign [Name "__all__"]
          (List_ [Constant (CInt 1); Constant (CStr "b")]) ].

(** [__all__ = ["a", 1, b, f(), ...]] *)
Definition mixed_all_init : Module_ :=
  Mod [ Assign [Name "__all__"]
          (List_ [Constant (CStr "a"); Constant (CInt 1); Name "b";
                  OtherExpr "Call" [Name "f"]; Constant CEllipsis]) ].

(** ** [get_latest_version] *)

(** [c in s], for a character. *)
Fixpoint has_char (c : Ascii.ascii) (s : string) : bool :=
  match s with
  | EmptyString => false
  | String c' s' => if Ascii.eqb c' c then true else has_char c s'
  end.

(** [s.split(sep)] for a separator of one character: the pieces between the
    occurrences of [sep], of which there is always at least one. *)
Fixpoint split_char (sep : Ascii.ascii) (s : string) : list string :=
  match s with
  | EmptyString => [EmptyString]
  | String c s' =>
      if Ascii.eqb c sep
      then EmptyString :: split_char sep s'
      else match split_char sep s' with
           | piece :: pieces => String c piece :: pieces
           | [] => [String c EmptyString]
           end
  end.

Module Versions.

(** [get_latest_version].  [run package_name] is the standard output of
    [pip index versions package_name], or [None] when [subprocess.run]
    raises (a failing pip raises, by [check=True]); [strip] is [str.strip].
    An [IndexError] of [line.split("(")[1]] is caught by the handler like
    every other exception, and the function then returns ["latest"]. *)
Definition get_latest_version (strip : string → string)
    (run : string → option string) (package_name : string) : string :=
  match run package_name with
  | None => "latest"
  | Some stdout =>
      let lines := split_char "010"%char (strip stdout) in
      match List.find (fun line => startswith line package_name) lines with
      | Some line =>
          match split_char "("%char line with
          | _ :: second :: _ => hd EmptyString (split_char ")"%char second)
          | _ => "latest"
          end
      | None => "latest"
      end
  end.

End Versions.

(** A [str.strip] for texts in ASCII, used in the sample inputs: it removes
    the spaces, tabs and line ends at both ends. *)
Definition ascii_space (c : Ascii.ascii) : bool :=
  (Ascii.eqb c " " || Ascii.eqb c "009" || Ascii.eqb c "010"
   || Ascii.eqb c "011" || Ascii.eqb c "012" || Ascii.eqb c "013")%char.

Fixpoint ascii_lstrip (s : string) : string :=
  match s with
  | EmptyString => EmptyString
  | String c s' => if ascii_space c then ascii_lstrip s' else s
  end.

Fixpoint ascii_rstrip (s : string) : string :=
  match s with
  | EmptyString => EmptyString
  | String c s' =>
      match ascii_rstrip s' with
      | EmptyString => if ascii_space c then EmptyString else String c EmptyString
      | rest => String c rest
      end
  end.

Definition ascii_strip (s : string) : string := ascii_rstrip (ascii_lstrip s).

(** The output of [pip index versions langchain]. *)
Definition pip_listing : string :=
  "WARNING: pip index is currently an experimental command.
langchain (0.3.7)
Available versions: 0.3.7, 0.3.6
".

(** The sample world without a network: pip fails. *)
Definition offline_world : World :=
  {| get_latest_version := fun _ => "latest";
     mkdtemp := mkdtemp sample_world;
     pip_install := fun _ _ =>
       (1%Z, "ERROR: Could not find a version that satisfies the requirement");
     exists_ := exists_ sample_world;
     rglob := rglob sample_world;
     read_text := read_text sample_world;
     ast_parse := ast_parse sample_world;
     open_write := open_write sample_world;
     write_close := write_close sample_world;
     int_max_str_digits := int_max_str_digits sample_world |}.

(** [__all__ = ["Chain", "Other"]]
    [try:]
    [    from langchain_core.chains import LLMChain as Chain]
    [except ImportError:]
    [    pass] *)
Definition chains_late_import : Module_ :=
  Mod [ Assign [Name "__all__"]
          (List_ [Constant (CStr "Chain"); Constant (CStr "Other")]);
        OtherStmt "Try"
          [ ImportFrom (Some "langchain_core.chains")
              [Alias "LLMChain" (Some "Chain")] 0;
            OtherStmt "Pass" [] ] ].

(** [from os.path import join]
    [from .base import Chain]
    [__all__ = ["join", "Chain"]] *)
Definition local_only_init : Module_ :=
  Mod [ ImportFrom (Some "os.path") [Alias "join" None] 0;
        ImportFrom (Some "base") [Alias "Chain" None] 1;
        Assign [Name "__all__"]
          (List_ [Constant (CStr "join"); Constant (CStr "Chain")]) ].

(** ** [serve_subset.py]: the selection of the navigation *)

(** [t in s], for strings. *)
Fixpoint substring_of (t s : string) : bool :=
  String.prefix t s
  || match s with
     | EmptyString => false
     | String _ s' => substring_of t s'
     end.

Module Subset.

(** The values that the YAML loader builds: strings, other scalars (numbers,
    booleans, [None], dates), lists, dictionaries with their keys in order,
    and the objects of the two tag classes. *)
Inductive yaml : Type :=
  | YStr (s : string)
  | YScalar (repr : string)
  | YList (items : list yaml)
  | YDict (items : list (yaml * yaml))
  | YTag (cls : string).

(** The exceptions that the loop over the navigation can raise: the
    [IndexError] of [list(item.keys())[0]] on an empty dictionary, and the
    exception of the test on [key.lower()] for a key that is not a string
    ([AttributeError] for a number, a boolean or [None]). *)
Inductive nav_error : Type :=
  | IndexError
  | KeyNotStr
  | NotIterable.

(** [isinstance(value, str) and value == "index.md"] *)
Definition is_index (value : yaml) : bool :=
  match value with
  | YStr s => String.eqb s "index.md"
  | _ => false
  end.

(** The body of the loop [for item in original_nav], on the pair
    [(new_nav, found)].  [lower] is [str.lower]. *)
Definition select_item (lower : string → string) (target : string)
    (acc : list yaml * bool) (item : yaml) : nav_error + list yaml * bool :=
  match item with
  | YDict [] => inl IndexError
  | YDict ((YStr key, value) :: _) =>
      if substring_of "get started" (lower key) || is_index value
      then inr (acc.1 ++ [item], acc.2)
      else if substring_of target (lower key)
      then inr (acc.1 ++ [item], true)
      else inr acc
  | YDict ((_, _) :: _) => inl KeyNotStr
  | YStr s =>
      if substring_of target (lower s)
      then inr (acc.1 ++ [item], true)
      else inr acc
  | _ => inr acc
  end.

Fixpoint select_items (lower : string → string) (target : string)
    (nav : list yaml) (acc : list yaml * bool)
    : nav_error + list yaml * bool :=
  match nav with
  | [] => inr acc
  | item :: rest =>
      match select_item lower target acc item with
      | inl e => inl e
      | inr acc' => select_items lower target rest acc'
      end
  end.

(** What becomes of the run after the loop: an exception leaves [main], or
    [sys.exit(1)] because nothing was found, or the navigation is replaced. *)
Inductive selection : Type :=
  | Crashed (e : nav_error)
  | NotFound
  | Selected (new_nav : list yaml).

(** From [target = args.section.lower()] to the test [if not found], for
    the items that the loop [for item in original_nav] goes through. *)
Definition select_section (lower : string → string) (section : string)
    (original_nav : list yaml) : selection :=
  match select_items lower (lower section) original_nav ([], false) with
  | inl e => Crashed e
  | inr (_, false) => NotFound
  | inr (new_nav, true) => Selected new_nav
  end.

(** The same, for the value of [config["nav"]] as the loop receives it:
    [Some items] when it can be iterated, with the items that iterating it
    yields (the elements of a list, the keys of a dictionary, the characters
    of a string), and [None] when it cannot ([None] for an empty [nav:], a
    number, a boolean), in which case the [for] statement raises
    [TypeError]. *)
Definition select_nav (lower : string → string) (section : string)
    (original_nav : option (list yaml)) : selection :=
  match original_nav with
  | None => Crashed NotIterable
  | Some items => select_section lower section items
  end.

(** The items kept whatever the section: a dictionary whose first key holds
    [get started] or whose first value is [index.md]. *)
Definition always_kept (lower : string → string) (item : yaml) : bool :=
  match item with
  | YDict ((YStr key, value) :: _) =>
      substring_of "get started" (lower key) || is_index value
  | _ => false
  end.

(** The items that count as the section asked for. *)
Definition requested (lower : string → string) (target : string)
    (item : yaml) : bool :=
  match item with
  | YDict ((YStr key, value) :: _) =>
      negb (always_kept lower item) && substring_of target (lower key)
  | YStr s => substring_of target (lower s)
  | _ => false
  end.

(** The items on which the loop raises. *)
Definition malformed (item : yaml) : bool :=
  match item with
  | YDict [] => true
  | YDict ((YStr _, _) :: _) => false
  | YDict _ => true
  | _ => false
  end.

End Subset.

(** [str.lower] on the letters of ASCII, used in the sample inputs. *)
Definition ascii_lower_char (c : ascii) : ascii :=
  let n := nat_of_ascii c in
  if (65 <=? n)%nat && (n <=? 90)%nat then ascii_of_nat (n + 32) else c.

Fixpoint ascii_lower (s : string) : string :=
  match s with
  | EmptyString => EmptyString
  | String c s' => String (ascii_lower_char c) (ascii_lower s')
  end.

(** The navigation
    [- Get started: index.md]
    [- LangGraph: [...]]
    [- Integrations: [...]]
    [- changelog.md] *)
Definition sample_nav : list Subset.yaml :=
  [ Subset.YDict [(Subset.YStr "Get started", Subset.YStr "index.md")];
    Subset.YDict [(Subset.YStr "LangGraph",
                   Subset.YList [Subset.YStr "langgraph/index.md"])];
    Subset.YDict [(Subset.YStr "Integrations",
                   Subset.YList [Subset.YStr "integrations/index.md"])];
    Subset.YStr "changelog.md" ].

(** ** Definitions for the statements about upstream modules and the
    writing of the report *)

(** The dictionary [results] that [main] builds from the located files and
    their analyses. *)
Definition report_of (w : World) (init_files : list Path)
    (analysis : list ModuleAnalysis) : Report :=
  {| metadata :=
       {| langchain_version := get_latest_version w "langchain";
          langchain_core_version := get_latest_version w "langchain_core";
          total_init_files := length init_files |};
     analysis := analysis;
     summary := summarize analysis |}.

(** The bindings made by the import-from statements whose module is the
    package [langchain_core] or lies under it, in source order. *)
Fixpoint upstream_bindings (node : stmt) : list (string * import_info) :=
  match node with
  | ImportFrom (Some m) names _ =>
      if in_package "langchain_core" m then map (alias_binding m) names else []
  | ImportFrom None _ _ => []
  | Assign _ _ => []
  | OtherStmt _ body => concat (map upstream_bindings body)
  end.

Definition module_upstream_bindings (tree : Module_)
    : list (string * import_info) :=
  concat (map upstream_bindings (mod_body tree)).

(** [from langchain_core.a import X]
    [from langchain_core.b import X]
    [from langchain_corex.c import X] *)
Definition sibling_shadow_init : Module_ :=
  Mod [ ImportFrom (Some "langchain_core.a") [Alias "X" None] 0;
        ImportFrom (Some "langchain_core.b") [Alias "X" None] 0;
        ImportFrom (Some "langchain_corex.c") [Alias "X" None] 0 ].

(** [from . import helpers]
    [from langchain_corex.foo import Bar as Baz] *)
Definition relative_sibling_init : Module_ :=
  Mod [ ImportFrom None [Alias "helpers" None] 1;
        ImportFrom (Some "langchain_corex.foo")
          [Alias "Bar" (Some "Baz")] 0 ].

(** [__all__ = ["Chain", b"raw"]] *)
Definition binary_all_init : Module_ :=
  Mod [ Assign [Name "__all__"]
          (List_ [Constant (CStr "Chain"); Constant (CBytes "raw")]) ].

(** The sample world in which the file of [chains] lists a [bytes] value in
    [__all__]. *)
Definition binary_world : World :=
  {| get_latest_version := get_latest_version sample_world;
     mkdtemp := mkdtemp sample_world;
     pip_install := pip_install sample_world;
     exists_ := exists_ sample_world;
     rglob := rglob sample_world;
     read_text := read_text sample_world;
     ast_parse := fun content =>
       if String.eqb content "tmp/langchain/chains/__init__.py"
       then inr binary_all_init
       else ast_parse sample_world content;
     open_write := open_write sample_world;
     write_close := write_close sample_world;
     int_max_str_digits := int_max_str_digits sample_world |}.


(** ** Induction over statements *)

Lemma stmt_nested_ind (P : stmt → Prop) :
  (∀ module names level, P (ImportFrom module names level)) →
  (∀ targets value, P (Assign targets value)) →
  (∀ cls body, Forall P body → P (OtherStmt cls body)) →
  ∀ node, P node.
Proof.
  intros HI HA HO.
  fix IH 1. intros [module names level | targets value | cls body].
  - apply HI.
  - apply HA.
  - apply HO. induction body as [|child body IHbody]; constructor.
    + apply IH.
    + apply IHbody.
Qed.

(** ** The visitor and the source-order views *)

Lemma bind_all_app bs1 bs2 imports :
  bind_all (bs1 ++ bs2) imports = bind_all bs2 (bind_all bs1 imports).
Proof. unfold bind_all. apply fold_left_app. Qed.

Lemma record_aliases_bind_all m names imports :
  fold_left (record_alias m) names imports
  = bind_all (map (alias_binding m) names) imports.
Proof.
  revert imports. induction names as [|a names IH]; intros imports; [done|].
  cbn. apply IH.
Qed.

Lemma visit_ImportFrom_imports module names level st :
  st_imports (visit_ImportFrom module names st)
  = bind_all (import_bindings (ImportFrom module names level)) (st_imports st).
Proof.
  unfold visit_ImportFrom. destruct module as [m|]; [|done].
  cbn [import_bindings]. destruct (from_core (Some m)); [|done].
  cbn [st_imports]. apply record_aliases_bind_all.
Qed.

Lemma visit_ImportFrom_exports module names st :
  st_exports (visit_ImportFrom module names st) = st_exports st.
Proof.
  unfold visit_ImportFrom. destruct module as [m|]; [|done].
  by destruct (from_core (Some m)).
Qed.

Lemma visit_Assign_imports targets value st :
  st_imports (visit_Assign targets value st) = st_imports st.
Proof.
  unfold visit_Assign. revert st.
  induction targets as [|t targets IH]; intros st; [done|].
  cbn [fold_left]. by rewrite IH.
Qed.

Lemma visit_Assign_exports targets value st :
  st_exports (visit_Assign targets value st)
  = st_exports st ++ concat (map (target_exports value) targets).
Proof.
  unfold visit_Assign. revert st.
  induction targets as [|t targets IH]; intros st.
  - cbn. by rewrite app_nil_r.
  - cbn [fold_left map concat]. rewrite IH. cbn [st_exports].
    by rewrite <- app_assoc.
Qed.

Lemma target_exports_all_assignments targets value :
  concat (map (target_exports value) targets)
  = concat (map constant_values (all_assignments (Assign targets value))).
Proof.
  destruct value as [id|c|elts|cls args]; cbn [all_assignments].
  1,2,4: induction targets as [|t targets IH]; [done | by cbn].
  induction targets as [|t targets IH]; [done|].
  cbn [map concat filter]. unfold target_exports at 1.
  rewrite IH. unfold filter at 2. cbn [list_filter].
  destruct (is_all_target t) eqn:Ht.
  - rewrite decide_True by done. done.
  - rewrite decide_False by done. done.
Qed.

Lemma visit_imports node : ∀ st,
  st_imports (visit node st) = bind_all (import_bindings node) (st_imports st).
Proof.
  induction node as [module names level | targets value | cls body IH]
    using stmt_nested_ind; intros st.
  - apply visit_ImportFrom_imports.
  - cbn [visit import_bindings]. apply visit_Assign_imports.
  - cbn [visit import_bindings]. revert st.
    induction IH as [|child body Hchild _ IHbody]; intros st; [done|].
    cbn [fold_left map concat]. rewrite bind_all_app, IHbody.
    by rewrite Hchild.
Qed.

Lemma visit_exports node : ∀ st,
  st_exports (visit node st)
  = st_exports st ++ concat (map constant_values (all_assignments node)).
Proof.
  induction node as [module names level | targets value | cls body IH]
    using stmt_nested_ind; intros st.
  - cbn [visit all_assignments map concat].
    by rewrite visit_ImportFrom_exports, app_nil_r.
  - cbn [visit]. rewrite visit_Assign_exports.
    by rewrite target_exports_all_assignments.
  - cbn [visit all_assignments]. revert st.
    induction IH as [|child body Hchild _ IHbody]; intros st.
    + cbn. by rewrite app_nil_r.
    + cbn [fold_left map concat]. rewrite IHbody, Hchild.
      rewrite map_app, concat_app. by rewrite app_assoc.
Qed.

Lemma visit_Module_imports tree :
  st_imports (visit_Module tree) = bind_all (module_bindings tree) ∅.
Proof.
  pose proof (visit_imports (OtherStmt "Module" (mod_body tree)) (VState ∅ []))
    as H.
  exact H.
Qed.

Lemma visit_Module_exports tree :
  st_exports (visit_Module tree)
  = concat (map constant_values (module_all_assignments tree)).
Proof.
  pose proof (visit_exports (OtherStmt "Module" (mod_body tree)) (VState ∅ []))
    as H.
  exact H.
Qed.

(** ** Dictionaries filled in order *)

Lemma bind_all_lookup bs : ∀ (imports : gmap string import_info) k,
  bind_all bs imports !! k
  = match last_binding k bs with
    | Some v => Some v
    | None => imports !! k
    end.
Proof.
  induction bs as [|[k' v] bs IH]; intros imports k; [done|].
  change (bind_all ((k', v) :: bs) imports)
    with (bind_all bs (<[k' := v]> imports)).
  rewrite IH. cbn [last_binding].
  destruct (last_binding k bs) as [v'|]; [done|].
  destruct (decide (k' = k)) as [->|Hne].
  - apply lookup_insert_eq.
  - by apply lookup_insert_ne.
Qed.

Lemma last_binding_absent k bs :
  (∀ v, (k, v) ∉ bs) → last_binding k bs = None.
Proof.
  induction bs as [|[k' v] bs IH]; intros Hno; [done|].
  cbn [last_binding]. rewrite IH.
  - destruct (decide (k' = k)) as [->|]; [|done].
    exfalso. apply (Hno v). left.
  - intros v' Hin. apply (Hno v'). by right.
Qed.

Lemma last_binding_app k bs1 bs2 :
  last_binding k (bs1 ++ bs2)
  = match last_binding k bs2 with
    | Some v => Some v
    | None => last_binding k bs1
    end.
Proof.
  induction bs1 as [|[k' v] bs1 IH]; cbn [app last_binding].
  - by destruct (last_binding k bs2).
  - rewrite IH. by destruct (last_binding k bs2).
Qed.

Lemma last_binding_split k v pre post :
  (∀ v', (k, v') ∉ post) → last_binding k (pre ++ (k, v) :: post) = Some v.
Proof.
  intros Hno. rewrite last_binding_app. cbn [last_binding].
  rewrite (last_binding_absent _ _ Hno). by rewrite decide_True.
Qed.

Lemma last_binding_Some k v bs :
  last_binding k bs = Some v → (k, v) ∈ bs.
Proof.
  induction bs as [|[k' v'] bs IH]; [done|]. cbn [last_binding].
  destruct (last_binding k bs) as [v''|].
  - intros [= ->]. right. by apply IH.
  - destruct (decide (k' = k)) as [->|]; [|done]. intros [= ->]. left.
Qed.

(** ** The loop that fills [exported_from_core] *)

Lemma add_export_lookup imports exported c k info :
  (∀ k i, exported !! k = Some i → imports !! k = Some i) →
  add_export imports exported c !! k = Some info
  ↔ (c = CStr k ∧ imports !! k = Some info) ∨ exported !! k = Some info.
Proof.
  intros Hinv. destruct c as [s| | | | | | |]; cbn [add_export];
    try (split; [by right | by intros [[? _]|?]]).
  destruct (imports !! s) as [i|] eqn:Hs.
  - destruct (decide (s = k)) as [->|Hne].
    + rewrite lookup_insert_eq. split.
      * intros [= ->]. by left.
      * intros [[_ H]|H]; [congruence|].
        apply Hinv in H. congruence.
    + rewrite lookup_insert_ne by done. split; [by right|].
      intros [[H _]|H]; [congruence | done].
  - split; [by right|]. intros [[[= ->] H]|H]; [congruence | done].
Qed.

Lemma add_export_sound imports exported c :
  (∀ k i, exported !! k = Some i → imports !! k = Some i) →
  ∀ k i, add_export imports exported c !! k = Some i → imports !! k = Some i.
Proof.
  intros Hinv k i H. apply add_export_lookup in H; [|done].
  destruct H as [[_ H]|H]; [done | by apply Hinv].
Qed.

Lemma fold_add_export_lookup imports exports : ∀ exported k info,
  (∀ k i, exported !! k = Some i → imports !! k = Some i) →
  fold_left (add_export imports) exports exported !! k = Some info
  ↔ (CStr k ∈ exports ∧ imports !! k = Some info) ∨ exported !! k = Some info.
Proof.
  induction exports as [|c exports IH]; intros exported k info Hinv.
  - cbn. split; [by right|]. intros [[H _]|H]; [|done].
    by apply not_elem_of_nil in H.
  - cbn [fold_left]. rewrite IH by by apply add_export_sound.
    rewrite add_export_lookup by done. rewrite elem_of_cons. split.
    + intros [[? ?]|[[? ?]|?]]; [left; split; [by right|done]
                                 | left; split; [by left|done] | by right].
    + intros [[[?|?] ?]|?]; [right; left; done | left; done | right; right; done].
Qed.

Lemma find_exported_lookup imports exports k info :
  find_exported imports exports !! k = Some info
  ↔ CStr k ∈ exports ∧ imports !! k = Some info.
Proof.
  unfold find_exported. rewrite fold_add_export_lookup.
  - split; [|by left]. intros [H|H]; [done|]. by rewrite lookup_empty in H.
  - intros k' i. by rewrite lookup_empty.
Qed.

(** ** [analyze_init_file] always returns *)

Lemma analyze_init_file_returns w init_file :
  analyze_init_file w init_file = Ok (analysis_result w init_file).
Proof.
  unfold analyze_init_file, analyze_try, analysis_result.
  destruct (read_text w init_file) as [[msg|msg]|content]; [done..|].
  by destruct (ast_parse w content) as [[msg|msg]|tree].
Qed.

Lemma analyze_init_file_parsed w init_file content tree :
  read_text w init_file = inr content →
  ast_parse w content = inr tree →
  analyze_init_file w init_file = Ok (analysis_of_tree init_file tree).
Proof.
  intros Hr Hp. rewrite analyze_init_file_returns.
  unfold analysis_result. by rewrite Hr, Hp.
Qed.

Lemma analysis_result_exported w init_file k info :
  exported_from_core (analysis_result w init_file) !! k = Some info
  ↔ CStr k ∈ all_exports (analysis_result w init_file)
    ∧ langchain_core_imports (analysis_result w init_file) !! k = Some info.
Proof.
  unfold analysis_result.
  destruct (read_text w init_file) as [e|content].
  - cbn. rewrite lookup_empty. split; [done | by intros [_ ?]].
  - destruct (ast_parse w content) as [e|tree].
    + cbn. rewrite lookup_empty. split; [done | by intros [_ ?]].
    + apply find_exported_lookup.
Qed.

Lemma bind_Ok {A B : Type} (a : A) (k : A → Result B) : Ok a ≫= k = k a.
Proof. reflexivity. Qed.

Lemma bind_Raise {A B : Type} (e : exn) (k : A → Result B) :
  Raise e ≫= k = Raise e.
Proof. reflexivity. Qed.

Lemma analyze_files_returns w init_files : ∀ acc,
  analyze_files w init_files acc
  = Ok (acc ++ map (analysis_result w) init_files).
Proof.
  induction init_files as [|f init_files IH]; intros acc.
  - cbn. by rewrite app_nil_r.
  - cbn [analyze_files]. rewrite analyze_init_file_returns, bind_Ok, IH.
    cbn [map].
    by rewrite <- app_assoc.
Qed.

(** ** Properties of the analysis of one file *)

(** C1: in every analysis that [analyze_init_file] produces, a key of
    [exported_from_core] is a key of [langchain_core_imports] and a member of
    [all_exports], and it carries the very pair that the import dictionary
    stores for that local name. *)
Theorem reexports_contained (w : World) (init_file : Path)
    (a : ModuleAnalysis) (k : string) (info : import_info) :
  analyze_init_file w init_file = Ok a →
  exported_from_core a !! k = Some info →
  langchain_core_imports a !! k = Some info ∧ CStr k ∈ all_exports a.
Proof.
  rewrite analyze_init_file_returns. intros [= <-] Hk.
  apply analysis_result_exported in Hk. tauto.
Qed.

Lemma reexports_contained_witness :
  langchain_core_imports
    (analysis_result sample_world ["tmp"; "langchain"; "chains"; "__init__.py"])
    !! "Chain"
  = Some (ImportInfo "langchain_core.chains" "LLMChain")
  ∧ CStr "Chain"
    ∈ all_exports
        (analysis_result sample_world
           ["tmp"; "langchain"; "chains"; "__init__.py"]).
Proof.
  apply (reexports_contained sample_world
           ["tmp"; "langchain"; "chains"; "__init__.py"]).
  - vm_compute. reflexivity.
  - vm_compute. reflexivity.
Defined.

(** C2: when an import-from statement passes the test on its module, each
    imported name is recorded under its local name with the module of the
    statement and the name before [as]: under the alias when one is given,
    under the original name otherwise.  The entry is the one read back after
    the statement whenever no later name of the same statement takes the same
    local name. *)
Theorem alias_recorded (m : string) (names : list alias) (level : nat)
    (st : visitor_state) (pre post : list alias) (a : alias) :
  from_core (Some m) = true →
  names = pre ++ a :: post →
  local_name a ∉ local_name <$> post →
  let imports := st_imports (visit (ImportFrom (Some m) names level) st) in
  (∀ n, asname a = Some n → n ≠ EmptyString →
        imports !! n = Some (ImportInfo m (alias_name a)))
  ∧ (asname a = None →
        imports !! alias_name a = Some (ImportInfo m (alias_name a))).
Proof.
  intros Hcore -> Hpost imports.
  assert (Hl : imports !! local_name a = Some (ImportInfo m (alias_name a))).
  { unfold imports. rewrite visit_imports. cbn [import_bindings].
    rewrite Hcore, bind_all_lookup, map_app. cbn [map].
    unfold alias_binding at 2. rewrite last_binding_split; [done|].
    intros v' Hin. apply Hpost.
    apply list_elem_of_fmap in Hin as [b [Hb Hin]].
    apply list_elem_of_fmap. exists b. split; [|done].
    unfold alias_binding in Hb. congruence. }
  split.
  - intros n Hn Hne. unfold local_name in Hl. rewrite Hn in Hl.
    destruct n; [done|]. exact Hl.
  - intros Hn. unfold local_name in Hl. by rewrite Hn in Hl.
Qed.

Lemma alias_recorded_witness :
  st_imports
    (visit (ImportFrom (Some "langchain_core.chains")
              [Alias "LLMChain" (Some "Chain")] 0) (VState ∅ []))
    !! "Chain"
  = Some (ImportInfo "langchain_core.chains" "LLMChain").
Proof.
  refine (proj1 (alias_recorded "langchain_core.chains"
                   [Alias "LLMChain" (Some "Chain")] 0 (VState ∅ [])
                   [] [] (Alias "LLMChain" (Some "Chain")) _ _ _)
                "Chain" _ _).
  - vm_compute. reflexivity.
  - reflexivity.
  - simpl. apply not_elem_of_nil.
  - reflexivity.
  - discriminate.
Defined.

(** X24: when several import-from statements that pass the test of
    [visit_ImportFrom] bind the same local name, the import dictionary holds
    the pair of the last of these bindings in source order. *)
Theorem last_binding_wins (w : World) (init_file : Path) (content : string)
    (tree : Module_) (pre post : list (string * import_info))
    (k : string) (v : import_info) :
  read_text w init_file = inr content →
  ast_parse w content = inr tree →
  module_bindings tree = pre ++ (k, v) :: post →
  k ∉ post.*1 →
  ∃ a, analyze_init_file w init_file = Ok a
       ∧ langchain_core_imports a !! k = Some v.
Proof.
  intros Hr Hp Hb Hpost. eexists. split.
  - by apply (analyze_init_file_parsed _ _ content).
  - cbn [analysis_of_tree langchain_core_imports].
    rewrite visit_Module_imports, bind_all_lookup, Hb.
    rewrite last_binding_split; [done|].
    intros v' Hin. apply Hpost. apply list_elem_of_fmap.
    by exists (k, v').
Qed.

Lemma last_binding_wins_witness :
  ∃ a, analyze_init_file sample_world ["tmp"; "langchain"; "__init__.py"] = Ok a
       ∧ langchain_core_imports a !! "Message"
         = Some (ImportInfo "langchain_core.prompts" "PromptTemplate").
Proof.
  apply (last_binding_wins sample_world ["tmp"; "langchain"; "__init__.py"]
           "tmp/langchain/__init__.py" shadowing_init
           [("Message", ImportInfo "langchain_core.messages" "AIMessage");
            ("BaseMessage", ImportInfo "langchain_core.messages" "BaseMessage")]
           []).
  - vm_compute. reflexivity.
  - vm_compute. reflexivity.
  - vm_compute. reflexivity.
  - simpl. apply not_elem_of_nil.
Defined.

(** X25: an import-from statement without a module (a relative import such
    as [from . import x]) leaves the visitor's state as it was; a statement
    changes the import dictionary only if it carries a module string that
    starts with [langchain_core]; and a file with such a statement is
    analysed without an error, to the same imports and exports as the file
    without the statement. *)
Theorem relative_import_ignored (names : list alias) (level : nat)
    (st : visitor_state) :
  visit (ImportFrom None names level) st = st
  ∧ (∀ module,
       st_imports (visit (ImportFrom module names level) st) ≠ st_imports st →
       ∃ m, module = Some m ∧ startswith m "langchain_core" = true)
  ∧ (∀ w init_file content pre post,
       read_text w init_file = inr content →
       ast_parse w content
       = inr (Mod (pre ++ ImportFrom None names level :: post)) →
       ∃ a, analyze_init_file w init_file = Ok a
         ∧ error a = None
         ∧ langchain_core_imports a
           = st_imports (visit_Module (Mod (pre ++ post)))
         ∧ all_exports a = st_exports (visit_Module (Mod (pre ++ post)))).
Proof.
  split; [done|]. split.
  - intros [m|] Hchange; [|done]. exists m. split; [done|].
    cbn [visit] in Hchange. unfold visit_ImportFrom in Hchange.
    destruct (from_core (Some m)) eqn:Hcore; [|done].
    cbn [from_core] in Hcore. by apply andb_prop in Hcore as [_ ?].
  - intros w init_file content pre post Hr Hp. eexists. split.
    + by apply (analyze_init_file_parsed _ _ content).
    + assert (Hsame : visit_Module
                        (Mod (pre ++ ImportFrom None names level :: post))
                      = visit_Module (Mod (pre ++ post))).
      { unfold visit_Module, visit_all. cbn [mod_body].
        by rewrite !fold_left_app. }
      cbn [analysis_of_tree error langchain_core_imports all_exports].
      by rewrite Hsame.
Qed.

Lemma relative_import_ignored_witness :
  ∃ a, analyze_init_file sample_world ["tmp"; "langchain"; "__init__.py"] = Ok a
    ∧ error a = None
    ∧ langchain_core_imports a
      = st_imports
          (visit_Module
             (Mod (take 1 (mod_body shadowing_init)
                   ++ drop 2 (mod_body shadowing_init))))
    ∧ all_exports a
      = st_exports
          (visit_Module
             (Mod (take 1 (mod_body shadowing_init)
                   ++ drop 2 (mod_body shadowing_init)))).
Proof.
  apply (proj2 (proj2 (relative_import_ignored [Alias "helpers" None] 1
                         (VState ∅ [])))
           sample_world ["tmp"; "langchain"; "__init__.py"]
           "tmp/langchain/__init__.py").
  - vm_compute. reflexivity.
  - vm_compute. reflexivity.
Defined.

(** ** The report *)

Lemma count_exports_fold analysis : ∀ acc,
  fold_left count_exports analysis acc
  = (acc.1 + reexport_total analysis, acc.2 + reexporting_modules analysis).
Proof.
  unfold reexport_total, reexporting_modules.
  induction analysis as [|a analysis IH]; intros [t n].
  - cbn. f_equal; lia.
  - cbn [fold_left]. rewrite IH. unfold count_exports.
    cbn [map sum_list sum_list_with].
    destruct (decide (exported_from_core a = ∅)) as [He|He].
    + rewrite filter_cons_False by (intros H; by apply H).
      rewrite He, map_size_empty. cbn. f_equal; lia.
    + rewrite filter_cons_True by done. cbn. f_equal; lia.
Qed.

Lemma summarize_totals analysis :
  summarize analysis
  = {| total_langchain_core_reexports := reexport_total analysis;
       modules_with_core_reexports := reexporting_modules analysis |}.
Proof. unfold summarize. by rewrite count_exports_fold. Qed.

Lemma analysis_result_error w init_file :
  error (analysis_result w init_file) ≠ None →
  exported_from_core (analysis_result w init_file) = ∅.
Proof.
  unfold analysis_result.
  destruct (read_text w init_file) as [e|content]; [done|].
  by destruct (ast_parse w content) as [e|tree].
Qed.

Lemma succeeded_totals w init_files :
  let analysis := map (analysis_result w) init_files in
  reexport_total (succeeded analysis) = reexport_total analysis
  ∧ reexporting_modules (succeeded analysis) = reexporting_modules analysis.
Proof.
  unfold succeeded, reexport_total, reexporting_modules.
  induction init_files as [|f init_files [IHt IHn]]; [done|].
  cbn [map sum_list sum_list_with].
  destruct (decide (error (analysis_result w f) = None)) as [He|He].
  - rewrite filter_cons_True by done.
    cbn [map sum_list sum_list_with]. rewrite IHt. split; [done|].
    destruct (decide (exported_from_core (analysis_result w f) ≠ ∅)).
    + rewrite !(filter_cons_True (λ a, exported_from_core a ≠ ∅)) by done.
      cbn [length]. by rewrite IHn.
    + rewrite !(filter_cons_False (λ a, exported_from_core a ≠ ∅)) by done.
      done.
  - rewrite filter_cons_False by done.
    apply analysis_result_error in He. rewrite IHt, IHn, He, map_size_empty.
    split; [done|].
    by rewrite filter_cons_False by (intros H; by apply H).
Qed.

Lemma analyze_files_each w init_files :
  Forall2 (fun f a => analyze_init_file w f = Ok a)
          init_files (map (analysis_result w) init_files).
Proof.
  induction init_files as [|f init_files IH]; constructor; [|done].
  apply analyze_init_file_returns.
Qed.

(** What a report that [main] returns is made of. *)
Lemma main_report w r :
  main w = Ok r →
  ∃ tmp, mkdtemp w = inr tmp
    ∧ (pip_install w tmp ["langchain"; "langchain_core"]).1 = 0%Z
    ∧ analysis r = map (analysis_result w) (find_init_files w tmp)
    ∧ summary r = summarize (analysis r)
    ∧ total_init_files (metadata r) = length (find_init_files w tmp).
Proof.
  unfold main. destruct (mkdtemp w) as [e|tmp]; [done|].
  rewrite bind_Ok. unfold install_packages.
  destruct (pip_install w tmp _) as [returncode stderr] eqn:Hpip.
  destruct (decide (returncode ≠ 0%Z)) as [|Hrc]; [done|].
  rewrite bind_Ok, analyze_files_returns, bind_Ok. cbn [app].
  match goal with |- context [json_dump w ?x] => destruct (json_dump w x) end;
    [|done].
  rewrite bind_Ok. intros [= <-]. exists tmp. split; [done|]. split; [|done].
  rewrite Hpip. cbn. by destruct (decide (returncode = 0%Z)).
Qed.

Lemma main_installed w tmp :
  mkdtemp w = inr tmp →
  (pip_install w tmp ["langchain"; "langchain_core"]).1 = 0%Z →
  main w
  = match json_dump w (report_of w (find_init_files w tmp)
                         (map (analysis_result w) (find_init_files w tmp))) with
    | Ok _ => Ok (report_of w (find_init_files w tmp)
                    (map (analysis_result w) (find_init_files w tmp)))
    | Raise e => Raise e
    end.
Proof.
  intros Htmp Hpip. unfold main. rewrite Htmp, bind_Ok.
  unfold install_packages.
  destruct (pip_install w tmp _) as [returncode stderr]. cbn in Hpip.
  rewrite decide_False by (intros H; by apply H).
  rewrite bind_Ok, analyze_files_returns, bind_Ok. cbn [app].
  fold (report_of w (find_init_files w tmp)
          (map (analysis_result w) (find_init_files w tmp))).
  by destruct (json_dump w _).
Qed.

Lemma main_not_installed w tmp :
  mkdtemp w = inr tmp →
  (pip_install w tmp ["langchain"; "langchain_core"]).1 ≠ 0%Z →
  ∃ e, main w = Raise e.
Proof.
  intros Htmp Hpip. unfold main. rewrite Htmp, bind_Ok.
  unfold install_packages.
  destruct (pip_install w tmp _) as [returncode stderr]. cbn in Hpip.
  rewrite decide_True by done. by eexists.
Qed.

Lemma encode_error_None max_digits results :
  encode_error max_digits results = None
  ↔ ∀ a c, a ∈ analysis results → c ∈ all_exports a →
           json_serializable max_digits c = true.
Proof.
  unfold encode_error. split.
  - destruct (List.find _ _) as [c'|] eqn:Hfind; [by destruct c'|].
    intros _ a c Ha Hc.
    pose proof (find_none _ _ Hfind c) as Hnone. cbn beta in Hnone.
    apply negb_false_iff, Hnone, in_concat. exists (all_exports a).
    split; [apply in_map; by apply list_elem_of_In | by apply list_elem_of_In].
  - intros Hall. destruct (List.find _ _) as [c'|] eqn:Hfind; [|done].
    apply find_some in Hfind as [Hin Hbad]. exfalso.
    apply in_concat in Hin as (exports & Hexports & Hin).
    apply in_map_iff in Hexports as (a & <- & Ha).
    rewrite (Hall a c') in Hbad; [done | by apply list_elem_of_In..].
Qed.

Lemma analysis_result_error_exports w init_file :
  error (analysis_result w init_file) ≠ None →
  all_exports (analysis_result w init_file) = [].
Proof.
  unfold analysis_result.
  destruct (read_text w init_file) as [e|content]; [done|].
  by destruct (ast_parse w content) as [e|tree].
Qed.

(** A check, by computation, that the exports of the files are values that
    [json.dump] writes. *)
Lemma located_exports_check w init_files :
  forallb (fun f => forallb (json_serializable (int_max_str_digits w))
                            (all_exports (analysis_result w f)))
          init_files = true →
  ∀ f a c, f ∈ init_files → analyze_init_file w f = Ok a → error a = None →
           c ∈ all_exports a →
           json_serializable (int_max_str_digits w) c = true.
Proof.
  intros Hall f a c Hf Ha _ Hc.
  rewrite analyze_init_file_returns in Ha. injection Ha as <-.
  rewrite forallb_forall in Hall.
  specialize (Hall f (proj1 (list_elem_of_In _ _) Hf)).
  rewrite forallb_forall in Hall. apply Hall. by apply list_elem_of_In.
Qed.

(** C4: a file whose text does not parse yields an analysis with an error
    string and with empty imports, exports and re-exports; the loop over the
    files still analyses every file; the counters of the summary of a report
    are the totals over the analyses without an error; and the report is
    produced all the same: once the packages are installed and the report
    file can be written, [main] returns it provided the exports of the files
    that do parse can be written, the files that do not parse setting no
    condition. *)
Theorem parse_failure_isolated (w : World) :
  (∀ init_file content e,
     read_text w init_file = inr content →
     ast_parse w content = inl e →
     ∃ a, analyze_init_file w init_file = Ok a
       ∧ error a = Some (exn_str (exn_of_parse_error e))
       ∧ langchain_core_imports a = ∅
       ∧ all_exports a = []
       ∧ exported_from_core a = ∅)
  ∧ (∀ init_files,
       ∃ analysis, analyze_files w init_files [] = Ok analysis
         ∧ Forall2 (fun f a => analyze_init_file w f = Ok a)
                   init_files analysis)
  ∧ (∀ r, main w = Ok r →
       (∃ tmp, mkdtemp w = inr tmp
          ∧ Forall2 (fun f a => analyze_init_file w f = Ok a)
                    (find_init_files w tmp) (analysis r))
       ∧ total_langchain_core_reexports (summary r)
         = reexport_total (succeeded (analysis r))
       ∧ modules_with_core_reexports (summary r)
         = reexporting_modules (succeeded (analysis r)))
  ∧ (∀ tmp,
       mkdtemp w = inr tmp →
       (pip_install w tmp ["langchain"; "langchain_core"]).1 = 0%Z →
       open_write w ["import_mappings.json"] = inr tt →
       write_close w ["import_mappings.json"] = inr tt →
       (∀ f a c, f ∈ find_init_files w tmp →
                 analyze_init_file w f = Ok a → error a = None →
                 c ∈ all_exports a →
                 json_serializable (int_max_str_digits w) c = true) →
       ∃ r, main w = Ok r
         ∧ Forall2 (fun f a => analyze_init_file w f = Ok a)
                   (find_init_files w tmp) (analysis r)
         ∧ total_langchain_core_reexports (summary r)
           = reexport_total (succeeded (analysis r))
         ∧ modules_with_core_reexports (summary r)
           = reexporting_modules (succeeded (analysis r))).
Proof.
  assert (Hreport : ∀ r, main w = Ok r →
            (∃ tmp, mkdtemp w = inr tmp
               ∧ Forall2 (fun f a => analyze_init_file w f = Ok a)
                         (find_init_files w tmp) (analysis r))
            ∧ total_langchain_core_reexports (summary r)
              = reexport_total (succeeded (analysis r))
            ∧ modules_with_core_reexports (summary r)
              = reexporting_modules (succeeded (analysis r))).
  { intros r Hmain.
    apply main_report in Hmain as (tmp & Htmp & _ & Ha & Hs & _).
    split.
    + exists tmp. split; [done|]. rewrite Ha. apply analyze_files_each.
    + rewrite Hs, summarize_totals, Ha. cbn.
      by destruct (succeeded_totals w (find_init_files w tmp)) as [-> ->]. }
  split; [|split; [|split; [done|]]].
  - intros init_file content e Hr Hp. eexists. split.
    + apply analyze_init_file_returns.
    + unfold analysis_result. rewrite Hr, Hp. done.
  - intros init_files. eexists. split.
    + apply analyze_files_returns.
    + apply analyze_files_each.
  - intros tmp Htmp Hpip Hopen Hwrite Hexports.
    assert (Hmain : main w
                    = Ok (report_of w (find_init_files w tmp)
                            (map (analysis_result w) (find_init_files w tmp)))).
    { rewrite (main_installed w tmp Htmp Hpip). unfold json_dump.
      rewrite Hopen, Hwrite.
      rewrite (proj2 (encode_error_None _ _)); [done|].
      cbn [analysis report_of]. intros a c Ha Hc.
      apply list_elem_of_In, in_map_iff in Ha as (f & <- & Hf).
      apply (Hexports f (analysis_result w f) c).
      - by apply list_elem_of_In.
      - apply analyze_init_file_returns.
      - destruct (error (analysis_result w f)) eqn:He; [|done].
        rewrite analysis_result_error_exports in Hc by congruence.
        by apply elem_of_nil in Hc.
      - done. }
    eexists. split; [exact Hmain|].
    destruct (Hreport _ Hmain) as ((tmp' & Htmp' & Hall) & Ht & Hm).
    rewrite Htmp in Htmp'. injection Htmp' as <-. done.
Qed.

Lemma parse_failure_isolated_witness :
  (∃ a, analyze_init_file sample_world
          ["tmp"; "langchain"; "broken"; "__init__.py"] = Ok a
     ∧ error a = Some "invalid syntax (<unknown>, line 1)"
     ∧ langchain_core_imports a = ∅
     ∧ all_exports a = []
     ∧ exported_from_core a = ∅)
  ∧ (∃ r, main sample_world = Ok r
       ∧ Forall2 (fun f a => analyze_init_file sample_world f = Ok a)
                 (find_init_files sample_world ["tmp"]) (analysis r)
       ∧ total_langchain_core_reexports (summary r)
         = reexport_total (succeeded (analysis r))
       ∧ modules_with_core_reexports (summary r)
         = reexporting_modules (succeeded (analysis r))).
Proof.
  split.
  - apply (proj1 (parse_failure_isolated sample_world)
             ["tmp"; "langchain"; "broken"; "__init__.py"]
             "tmp/langchain/broken/__init__.py"
             (ParseSyntaxError "invalid syntax (<unknown>, line 1)")).
    + vm_compute. reflexivity.
    + vm_compute. reflexivity.
  - apply (proj2 (proj2 (proj2 (parse_failure_isolated sample_world)))
             ["tmp"]).
    + reflexivity.
    + reflexivity.
    + reflexivity.
    + reflexivity.
    + apply located_exports_check. vm_compute. reflexivity.
Defined.

(** ** The files that are located *)

Lemma skipped_false rel :
  skipped rel = false
  ↔ ∀ part, part ∈ removelast rel → private_part part = false.
Proof.
  unfold skipped. split.
  - intros Hex part Hin. destruct (private_part part) eqn:Hp; [|done].
    rewrite <- Hex. symmetry. apply existsb_exists. exists part.
    split; [by apply list_elem_of_In | done].
  - intros Hall. destruct (existsb private_part (removelast rel)) eqn:Hex;
      [|done].
    apply existsb_exists in Hex as (part & Hin & Hp).
    apply list_elem_of_In, Hall in Hin. congruence.
Qed.

Lemma find_init_files_elem w package_path p :
  p ∈ find_init_files w package_path
  ↔ exists_ w (package_path ++ ["langchain"]) = true
    ∧ ∃ rel, rel ∈ rglob w (package_path ++ ["langchain"]) "__init__.py"
        ∧ skipped rel = false
        ∧ p = (package_path ++ ["langchain"]) ++ rel.
Proof.
  unfold find_init_files.
  destruct (exists_ w (package_path ++ ["langchain"])); cbn [negb].
  - rewrite list_elem_of_fmap. split.
    + intros (rel & -> & Hin). apply list_elem_of_filter in Hin as [Hs Hin].
      split; [done|]. by exists rel.
    + intros (_ & rel & Hin & Hs & ->). exists rel. split; [done|].
      by apply list_elem_of_filter.
  - split; [intros H; by apply not_elem_of_nil in H | by intros [? _]].
Qed.

(** C8, as stated, fails: a file under a directory whose name begins with an
    underscore is located when that directory is called [__init__.py]. *)
Lemma underscore_directory_located :
  "__init__.py" ∈ removelast ["__init__.py"; "__init__.py"]
  ∧ startswith "__init__.py" "_" = true
  ∧ ["tmp"; "langchain"; "__init__.py"; "__init__.py"]
    ∈ find_init_files nested_world ["tmp"]
  ∧ ∃ r, main nested_world = Ok r
      ∧ file <$> analysis r
        = ["tmp/langchain/__init__.py";
           "tmp/langchain/__init__.py/__init__.py"].
Proof.
  split; [left|]. split; [reflexivity|]. split; [right; left|].
  eexists. split; vm_compute; reflexivity.
Qed.

(** C8, amended: a file is left out when a directory on its path below
    [langchain] has a name that begins with an underscore and is not
    [__init__.py]; and every module of a report is the analysis of a located
    file, so none is the analysis of such a file. *)
Theorem private_directories_excluded (w : World) (package_path rel : Path)
    (part : string) :
  part ∈ removelast rel →
  startswith part "_" = true →
  part ≠ "__init__.py" →
  ((package_path ++ ["langchain"]) ++ rel ∉ find_init_files w package_path)
  ∧ (∀ r, main w = Ok r → mkdtemp w = inr package_path →
       Forall (fun a => ∃ p, p ∈ find_init_files w package_path
                          ∧ file a = path_str p
                          ∧ p ≠ (package_path ++ ["langchain"]) ++ rel)
              (analysis r)).
Proof.
  intros Hin Hunder Hne.
  assert (Hout : (package_path ++ ["langchain"]) ++ rel
                 ∉ find_init_files w package_path).
  { intros (_ & rel' & _ & Hs & Heq)%find_init_files_elem.
    apply app_inv_head in Heq as <-.
    pose proof (proj1 (skipped_false rel) Hs part Hin) as Hp.
    unfold private_part in Hp. rewrite Hunder in Hp. cbn in Hp.
    apply negb_false_iff, String.eqb_eq in Hp. done. }
  split; [done|]. intros r Hmain Htmp.
  apply main_report in Hmain as (tmp & Htmp' & _ & Ha & _).
  rewrite Htmp in Htmp'. injection Htmp' as <-. rewrite Ha.
  apply Forall_forall. intros a Hin'.
  apply list_elem_of_fmap in Hin' as (p & -> & Hp). exists p. split; [done|]. split.
  - unfold analysis_result.
    destruct (read_text w p) as [e|content]; [done|].
    by destruct (ast_parse w content).
  - intros ->. done.
Qed.

Lemma private_directories_excluded_witness :
  (["tmp"; "langchain"; "_api"; "__init__.py"]
   ∉ find_init_files sample_world ["tmp"])
  ∧ (∀ r, main sample_world = Ok r → mkdtemp sample_world = inr ["tmp"] →
       Forall (fun a => ∃ p, p ∈ find_init_files sample_world ["tmp"]
                          ∧ file a = path_str p
                          ∧ p ≠ ["tmp"; "langchain"; "_api"; "__init__.py"])
              (analysis r)).
Proof.
  apply (private_directories_excluded sample_world ["tmp"]
           ["_api"; "__init__.py"] "_api").
  - left.
  - reflexivity.
  - discriminate.
Defined.

(** ** The exit status *)




(** ** Where the code and its documentation part *)

Lemma prefix_append_l (p q s : string) :
  String.prefix (p +:+ q) s = true → String.prefix p s = true.
Proof.
  revert s. induction p as [|c p IH]; intros s; [by destruct s|].
  destruct s as [|c' s]; [done|].
  change (String c p +:+ q) with (String c (p +:+ q)). cbn [String.prefix].
  destruct (Ascii.ascii_dec c c'); [apply IH | done].
Qed.

(** The test of [visit_ImportFrom] accepts every module of the package. *)
Lemma in_package_from_core m :
  in_package "langchain_core" m = true → from_core (Some m) = true.
Proof.
  unfold in_package, from_core, startswith.
  intros [->%String.eqb_eq|H]%orb_prop; [done|].
  apply prefix_append_l in H. rewrite H. by destruct m.
Qed.

(** C3: the module [langchain_corex.foo] is neither [langchain_core] nor
    under it, and yet the statement that imports from it is recorded as an
    import from [langchain_core]. *)
Theorem sibling_package_recorded :
  in_package "langchain_core" "langchain_corex.foo" = false
  ∧ from_core (Some "langchain_corex.foo") = true
  ∧ st_imports (visit sibling_import (VState ∅ [])) !! "Bar"
    = Some (ImportInfo "langchain_corex.foo" "Bar").
Proof. split; [|split]; vm_compute; reflexivity. Qed.

(** ** The export list *)

Lemma strings_of_app cs1 cs2 :
  strings_of (cs1 ++ cs2) = strings_of cs1 ++ strings_of cs2.
Proof.
  induction cs1 as [|c cs1 IH]; [done|].
  destruct c; cbn; by rewrite ?IH.
Qed.

Lemma strings_of_constant_values elts :
  strings_of (constant_values elts) = string_elements elts.
Proof.
  induction elts as [|elt elts IH]; [done|].
  destruct elt as [id|c|elts'|cls args]; cbn; [done| |done|done].
  destruct c; cbn; by rewrite ?IH.
Qed.

(** Later assignments to [__all__] add to the earlier ones: the strings of
    the export list are the literal strings of the assigned lists, in source
    order. *)
Lemma exports_strings tree :
  strings_of (st_exports (visit_Module tree))
  = concat (map string_elements (module_all_assignments tree)).
Proof.
  rewrite visit_Module_exports.
  induction (module_all_assignments tree) as [|elts l IH]; [done|].
  cbn [map concat]. by rewrite strings_of_app, strings_of_constant_values, IH.
Qed.

Lemma elem_of_constant_values c elts :
  c ∈ constant_values elts ↔ Constant c ∈ elts.
Proof.
  induction elts as [|elt elts IH]; [by rewrite !elem_of_nil|].
  destruct elt as [id|c'|elts'|cls args]; cbn [constant_values];
    rewrite ?elem_of_cons, IH; try (split; [by right | by intros [?|?]]).
  split; (intros [H|H]; [left; congruence | by right]).
Qed.

(** Every extracted export is a literal constant of a list assigned to
    [__all__]: names, calls and other expressions are passed over. *)
Lemma exports_are_constants tree c :
  c ∈ st_exports (visit_Module tree)
  ↔ ∃ elts, elts ∈ module_all_assignments tree ∧ Constant c ∈ elts.
Proof.
  rewrite visit_Module_exports.
  induction (module_all_assignments tree) as [|elts l IH].
  - cbn. rewrite elem_of_nil. split; [done|].
    intros (elts & H & _). by apply elem_of_nil in H.
  - cbn [map concat]. rewrite elem_of_app, IH, elem_of_constant_values.
    split.
    + intros [H|(elts' & Hin & H)].
      * exists elts. split; [by left | done].
      * exists elts'. split; [by right | done].
    + intros (elts' & [->|Hin]%elem_of_cons & H); [by left|].
      right. by exists elts'.
Qed.

(** C6: with two assignments to [__all__], the second is added after the
    first, but the number in the second list is extracted with the strings,
    so the export list is not the list of the string elements. *)
Theorem repeated_all_keeps_number :
  concat (map string_elements (module_all_assignments extended_all_init))
  = ["a"; "b"]
  ∧ all_exports (analysis_of_tree ["langchain"; "__init__.py"]
                   extended_all_init)
    = [CStr "a"; CInt 1; CStr "b"].
Proof. split; vm_compute; reflexivity. Qed.

(** C7: the name and the call of the list are passed over, but the number
    and the ellipsis, which are constants and not strings, are extracted. *)
Theorem non_string_constants_exported :
  all_exports (analysis_of_tree ["langchain"; "__init__.py"] mixed_all_init)
  = [CStr "a"; CInt 1; CEllipsis].
Proof. vm_compute. reflexivity. Qed.

(** ** Splitting a text *)

Lemma split_char_hd_tl sep s :
  split_char sep s
  = hd EmptyString (split_char sep s) :: tl (split_char sep s).
Proof.
  destruct s as [|c s]; [done|]. cbn [split_char].
  destruct (Ascii.eqb c sep); [done|].
  by destruct (split_char sep s).
Qed.

Lemma split_char_prefix sep x y :
  has_char sep x = false →
  split_char sep (x +:+ y)
  = (x +:+ hd EmptyString (split_char sep y)) :: tl (split_char sep y).
Proof.
  induction x as [|c x IH]; intros Hx.
  - apply split_char_hd_tl.
  - cbn [has_char] in Hx. destruct (Ascii.eqb c sep) eqn:Hc; [done|].
    change (String c x +:+ y) with (String c (x +:+ y)).
    cbn [split_char]. by rewrite Hc, IH.
Qed.

Lemma split_char_at_sep sep s :
  split_char sep (String sep s) = EmptyString :: split_char sep s.
Proof. cbn [split_char]. by rewrite Ascii.eqb_refl. Qed.

Lemma append_empty_r s : s +:+ EmptyString = s.
Proof.
  induction s as [|c s IH]; [done|].
  change (String c s +:+ EmptyString) with (String c (s +:+ EmptyString)).
  by rewrite IH.
Qed.

Lemma split_char_piece_no_sep sep s piece :
  piece ∈ split_char sep s → has_char sep piece = false.
Proof.
  revert piece. induction s as [|c s IH]; intros piece.
  - cbn. intros ->%list_elem_of_singleton. done.
  - cbn [split_char]. destruct (Ascii.eqb c sep) eqn:Hc.
    + intros [->|H]%elem_of_cons; [done | by apply IH].
    + rewrite (split_char_hd_tl sep s) in IH |- *.
      intros [->|H]%elem_of_cons.
      * cbn [has_char]. rewrite Hc. apply IH. left.
      * apply IH. by right.
Qed.

Lemma split_char_piece_keeps c sep s piece :
  has_char c s = false → piece ∈ split_char sep s → has_char c piece = false.
Proof.
  revert piece. induction s as [|c' s IH]; intros piece Hs.
  - cbn. intros ->%list_elem_of_singleton. done.
  - cbn [has_char] in Hs. destruct (Ascii.eqb c' c) eqn:Hc'; [done|].
    cbn [split_char]. destruct (Ascii.eqb c' sep).
    + intros [->|H]%elem_of_cons; [done | by apply IH].
    + rewrite (split_char_hd_tl sep s) in IH |- *.
      intros [->|H]%elem_of_cons.
      * cbn [has_char]. rewrite Hc'. apply IH; [done | left].
      * apply IH; [done | by right].
Qed.

Lemma hd_split_char_elem sep s :
  hd EmptyString (split_char sep s) ∈ split_char sep s.
Proof.
  pose proof (split_char_hd_tl sep s) as H.
  destruct (split_char sep s); [discriminate H|]. left.
Qed.

Lemma startswith_append p s : startswith (p +:+ s) p = true.
Proof.
  unfold startswith. induction p as [|c p IH]; [by destruct s|].
  change (String c p +:+ s) with (String c (p +:+ s)). cbn [String.prefix].
  by destruct (Ascii.ascii_dec c c).
Qed.

Lemma find_first {A : Type} (f : A → bool) pre x post :
  Forall (fun y => f y = false) pre →
  f x = true →
  List.find f (pre ++ x :: post) = Some x.
Proof.
  intros Hpre Hx. induction Hpre as [|y pre Hy _ IH]; cbn.
  - by rewrite Hx.
  - by rewrite Hy.
Qed.

Lemma split_char_none sep s :
  has_char sep s = false → split_char sep s = [s].
Proof.
  intros Hs. rewrite <- (append_empty_r s) at 1.
  rewrite split_char_prefix by done. cbn. by rewrite append_empty_r.
Qed.

(** ** [get_latest_version] *)

(** X1: when the first line of pip's output that starts with the package
    name has the shape [name ... (version) ...], with no parenthesis before
    the version or in it, the function returns the version between the
    parentheses. *)
Theorem version_in_parentheses (strip : string → string)
    (run : string → option string) (package_name stdout : string)
    (pre post : list string) (a v b : string) :
  run package_name = Some stdout →
  split_char "010" (strip stdout)
  = pre ++ (package_name +:+ a +:+ String "(" (v +:+ String ")" b)) :: post →
  Forall (fun line => startswith line package_name = false) pre →
  has_char "(" package_name = false →
  has_char "(" a = false →
  has_char "(" v = false →
  has_char ")" v = false →
  Versions.get_latest_version strip run package_name = v.
Proof.
  intros Hrun Hlines Hpre Hname Ha Hv Hv'.
  unfold Versions.get_latest_version. rewrite Hrun, Hlines.
  rewrite find_first by (done || apply startswith_append).
  rewrite (split_char_prefix "(" package_name) by done.
  rewrite (split_char_prefix "(" a) by done.
  rewrite split_char_at_sep. cbn [hd tl].
  rewrite (split_char_prefix "(" v) by done.
  cbn [split_char]. change (Ascii.eqb ")" "(") with false. cbn match.
  rewrite (split_char_hd_tl "(" b). cbn [hd tl].
  rewrite (split_char_prefix ")" v) by done.
  rewrite split_char_at_sep. cbn [hd]. apply append_empty_r.
Qed.

Lemma version_in_parentheses_witness :
  Versions.get_latest_version ascii_strip (fun _ => Some pip_listing)
    "langchain"
  = "0.3.7".
Proof.
  apply (version_in_parentheses ascii_strip (fun _ => Some pip_listing)
           "langchain" pip_listing
           ["WARNING: pip index is currently an experimental command."]
           ["Available versions: 0.3.7, 0.3.6"] " " "0.3.7" EmptyString).
  - reflexivity.
  - vm_compute. reflexivity.
  - repeat constructor.
  - reflexivity.
  - reflexivity.
  - reflexivity.
  - reflexivity.
Defined.

(** X2: whatever pip prints, the version returned holds no parenthesis and
    no line end. *)
Theorem version_has_no_separator (strip : string → string)
    (run : string → option string) (package_name : string) :
  let v := Versions.get_latest_version strip run package_name in
  has_char "(" v = false ∧ has_char ")" v = false ∧ has_char "010" v = false.
Proof.
  unfold Versions.get_latest_version.
  destruct (run package_name) as [stdout|]; [|done].
  destruct (List.find _ _) as [line|] eqn:Hfind; [|done].
  apply find_some in Hfind as [Hline%list_elem_of_In _].
  assert (Hnl : has_char "010" line = false)
    by (by apply split_char_piece_no_sep in Hline).
  destruct (split_char "(" line) as [|first [|second rest]] eqn:Hsplit;
    [done..|].
  assert (Hsecond : second ∈ split_char "(" line)
    by (rewrite Hsplit; right; left).
  pose proof (hd_split_char_elem ")" second) as Hv.
  cbn zeta. split; [|split].
  - eapply split_char_piece_keeps; [|exact Hv].
    by apply split_char_piece_no_sep in Hsecond.
  - by apply split_char_piece_no_sep in Hv.
  - eapply split_char_piece_keeps; [|exact Hv].
    eapply split_char_piece_keeps; [exact Hnl | exact Hsecond].
Qed.

(** X3: the first line that starts with the package name decides: when it
    holds no opening parenthesis the function returns ["latest"], whatever
    the lines after it. *)
Theorem first_match_decides (strip : string → string)
    (run : string → option string) (package_name stdout : string)
    (pre post : list string) (line : string) :
  run package_name = Some stdout →
  split_char "010" (strip stdout) = pre ++ line :: post →
  Forall (fun line => startswith line package_name = false) pre →
  startswith line package_name = true →
  has_char "(" line = false →
  Versions.get_latest_version strip run package_name = "latest".
Proof.
  intros Hrun Hlines Hpre Hline Hparen.
  unfold Versions.get_latest_version. rewrite Hrun, Hlines.
  rewrite find_first by done. by rewrite split_char_none.
Qed.

Lemma first_match_decides_witness :
  Versions.get_latest_version ascii_strip
    (fun _ => Some "langchain-core
langchain (0.3.7)")
    "langchain"
  = "latest".
Proof.
  apply (first_match_decides ascii_strip _ "langchain"
           "langchain-core
langchain (0.3.7)" [] ["langchain (0.3.7)"] "langchain-core").
  - reflexivity.
  - vm_compute. reflexivity.
  - constructor.
  - reflexivity.
  - reflexivity.
Defined.

(** ** More on [main] and [find_init_files] *)

(** X4: when pip returns a code other than 0, [main] raises an exception
    whose message carries pip's standard error, and returns no report. *)
Theorem install_failure_stops_main (w : World) (tmp : Path) (returncode : Z)
    (stderr : string) :
  mkdtemp w = inr tmp →
  pip_install w tmp ["langchain"; "langchain_core"] = (returncode, stderr) →
  returncode ≠ 0%Z →
  main w = Raise (Exception_ ("Failed to install packages: " +:+ stderr)).
Proof.
  intros Htmp Hpip Hrc. unfold main. rewrite Htmp, bind_Ok.
  unfold install_packages. rewrite Hpip.
  by rewrite decide_True, bind_Raise.
Qed.

Lemma install_failure_stops_main_witness :
  main offline_world
  = Raise (Exception_
             ("Failed to install packages: "
              +:+ "ERROR: Could not find a version that satisfies the requirement")).
Proof.
  apply (install_failure_stops_main offline_world ["tmp"] 1%Z).
  - reflexivity.
  - reflexivity.
  - discriminate.
Defined.

(** X5: the files located are exactly the matches of the walk under an
    existing [langchain] directory whose directories, from [langchain] down,
    have no name that begins with an underscore, apart from the name
    [__init__.py]. *)
Theorem located_files (w : World) (package_path p : Path) :
  p ∈ find_init_files w package_path
  ↔ exists_ w (package_path ++ ["langchain"]) = true
    ∧ ∃ rel, rel ∈ rglob w (package_path ++ ["langchain"]) "__init__.py"
        ∧ p = (package_path ++ ["langchain"]) ++ rel
        ∧ ∀ part, part ∈ removelast rel →
                  startswith part "_" = true → part = "__init__.py".
Proof.
  rewrite find_init_files_elem.
  assert (Hskip : ∀ rel,
            skipped rel = false
            ↔ ∀ part, part ∈ removelast rel →
                      startswith part "_" = true → part = "__init__.py").
  { intros rel. rewrite skipped_false. unfold private_part.
    split; intros H part Hin.
    - intros Hunder. specialize (H part Hin). rewrite Hunder in H.
      by apply negb_false_iff, String.eqb_eq in H.
    - destruct (startswith part "_") eqn:Hunder; [|done].
      rewrite (H part Hin Hunder). done. }
  split.
  - intros (Hex & rel & Hin & Hs & ->). split; [done|]. exists rel.
    split; [done|]. split; [done|]. by apply Hskip.
  - intros (Hex & rel & Hin & -> & Hs). split; [done|]. exists rel.
    split; [done|]. split; [|done]. by apply Hskip.
Qed.

Lemma located_files_witness :
  ["tmp"; "langchain"; "chains"; "__init__.py"]
  ∈ find_init_files sample_world ["tmp"].
Proof.
  apply (proj2 (located_files sample_world ["tmp"]
                  ["tmp"; "langchain"; "chains"; "__init__.py"])).
  split; [reflexivity|]. exists ["chains"; "__init__.py"].
  split; [right; left|]. split; [reflexivity|].
  intros part [->|H]%elem_of_cons; [discriminate|].
  by apply elem_of_nil in H.
Defined.

(** X6: the located files come in the order of the walk and each of them is
    a match of the walk: the result is a sub-list of the matches. *)
Theorem located_files_in_walk_order (w : World) (package_path : Path) :
  find_init_files w package_path
  `sublist_of` (fun rel => (package_path ++ ["langchain"]) ++ rel)
               <$> rglob w (package_path ++ ["langchain"]) "__init__.py".
Proof.
  unfold find_init_files.
  destruct (exists_ w (package_path ++ ["langchain"])); cbn [negb].
  - apply fmap_sublist, sublist_filter.
  - apply sublist_nil_l.
Qed.

(** ** More on [analyze_init_file] *)

(** X7: a file that cannot be opened or decoded is reported like one that
    does not parse: the analysis carries the message of the exception and
    empty imports, exports and re-exports. *)
Theorem read_failure_isolated (w : World) (init_file : Path) (e : read_error) :
  read_text w init_file = inl e →
  ∃ a, analyze_init_file w init_file = Ok a
    ∧ file a = path_str init_file
    ∧ error a = Some (exn_str (exn_of_read_error e))
    ∧ langchain_core_imports a = ∅
    ∧ all_exports a = []
    ∧ exported_from_core a = ∅.
Proof.
  intros Hr. eexists. split; [apply analyze_init_file_returns|].
  unfold analysis_result. by rewrite Hr.
Qed.

Lemma read_failure_isolated_witness :
  ∃ a, analyze_init_file nested_world ["tmp"; "langchain"; "__init__.py"] = Ok a
    ∧ file a = "tmp/langchain/__init__.py"
    ∧ error a = Some "[Errno 21] Is a directory"
    ∧ langchain_core_imports a = ∅
    ∧ all_exports a = []
    ∧ exported_from_core a = ∅.
Proof.
  apply (read_failure_isolated nested_world ["tmp"; "langchain"; "__init__.py"]
           (ReadOSError "[Errno 21] Is a directory")).
  reflexivity.
Defined.

(** X8: every name that a file both imports from [langchain_core] and lists
    in [__all__] is a key of [exported_from_core], with the pair of the import
    dictionary. *)
Theorem reexports_complete (w : World) (init_file : Path) (a : ModuleAnalysis)
    (k : string) (info : import_info) :
  analyze_init_file w init_file = Ok a →
  CStr k ∈ all_exports a →
  langchain_core_imports a !! k = Some info →
  exported_from_core a !! k = Some info.
Proof.
  rewrite analyze_init_file_returns. intros [= <-] Hexp Himp.
  by apply analysis_result_exported.
Qed.

Lemma reexports_complete_witness :
  exported_from_core
    (analysis_result sample_world ["tmp"; "langchain"; "chains"; "__init__.py"])
    !! "Chain"
  = Some (ImportInfo "langchain_core.chains" "LLMChain").
Proof.
  apply (reexports_complete sample_world
           ["tmp"; "langchain"; "chains"; "__init__.py"]).
  - vm_compute. reflexivity.
  - left.
  - vm_compute. reflexivity.
Defined.

(** X9: the re-exports do not depend on the order of the names in
    [__all__] nor on how often a name is listed: two export lists with the
    same members give the same entries. *)
Theorem reexports_ignore_order (imports : gmap string import_info)
    (exports1 exports2 : list constant) :
  (∀ c, c ∈ exports1 ↔ c ∈ exports2) →
  find_exported imports exports1 = find_exported imports exports2.
Proof.
  intros Hsame. apply map_eq. intros k. apply option_eq. intros info.
  by rewrite !find_exported_lookup, Hsame.
Qed.

Lemma reexports_ignore_order_witness :
  find_exported {[ "Chain" := ImportInfo "langchain_core.chains" "LLMChain" ]}
    [CStr "Chain"; CStr "Other"; CStr "Chain"]
  = find_exported {[ "Chain" := ImportInfo "langchain_core.chains" "LLMChain" ]}
      [CStr "Other"; CStr "Chain"].
Proof.
  apply reexports_ignore_order. intros c.
  rewrite !elem_of_cons, !elem_of_nil. tauto.
Defined.

(** X10: a module without a binding from [langchain_core] has an empty
    import dictionary and no re-export, whatever it lists in [__all__]. *)
Theorem no_upstream_imports (init_file : Path) (tree : Module_) :
  module_bindings tree = [] →
  langchain_core_imports (analysis_of_tree init_file tree) = ∅
  ∧ exported_from_core (analysis_of_tree init_file tree) = ∅.
Proof.
  intros Hnone.
  assert (Himp : st_imports (visit_Module tree) = ∅)
    by (by rewrite visit_Module_imports, Hnone).
  split; [done|]. cbn [analysis_of_tree exported_from_core]. rewrite Himp.
  apply map_eq. intros k. apply option_eq. intros info.
  rewrite find_exported_lookup, !lookup_empty. split; [by intros [_ ?] | done].
Qed.

Lemma no_upstream_imports_witness :
  langchain_core_imports
    (analysis_of_tree ["langchain"; "__init__.py"] local_only_init) = ∅
  ∧ exported_from_core
      (analysis_of_tree ["langchain"; "__init__.py"] local_only_init) = ∅.
Proof.
  apply (no_upstream_imports ["langchain"; "__init__.py"] local_only_init).
  vm_compute. reflexivity.
Defined.

(** X11: an assignment changes nothing when its value is not a list
    display (a tuple, a call, a name, ...) or when none of its targets is the
    name [__all__]. *)
Theorem other_assignments_ignored (targets : list expr) (value : expr)
    (st : visitor_state) :
  (∀ elts, value ≠ List_ elts)
  ∨ Forall (fun target => target ≠ Name "__all__") targets →
  visit (Assign targets value) st = st.
Proof.
  intros H. destruct st as [imports exports].
  assert (Hnone : concat (map (target_exports value) targets) = []).
  { destruct H as [Hval|Htargets].
    - induction targets as [|t targets IH]; [done|]. cbn [map concat].
      rewrite IH. by destruct value as [| |elts|]; [..|destruct (Hval elts)|].
    - induction Htargets as [|t targets Ht _ IH]; [done|]. cbn [map concat].
      rewrite IH, app_nil_r. unfold target_exports.
      destruct value as [| |elts|]; try done.
      destruct t as [id| | |]; try done. cbn [is_all_target].
      destruct (String.eqb id "__all__") eqn:Hid; [|done].
      apply String.eqb_eq in Hid as ->. done. }
  cbn [visit].
  pose proof (visit_Assign_imports targets value (VState imports exports)) as Hi.
  pose proof (visit_Assign_exports targets value (VState imports exports)) as He.
  rewrite Hnone, app_nil_r in He.
  destruct (visit_Assign targets value (VState imports exports)).
  cbn in Hi, He. by subst.
Qed.

Lemma other_assignments_ignored_witness :
  visit (Assign [Name "__all__"]
           (OtherExpr "Tuple" [Constant (CStr "a"); Constant (CStr "b")]))
        (VState ∅ [])
  = VState ∅ [].
Proof.
  apply other_assignments_ignored. left. discriminate.
Defined.

(** X12: the analysis of a file depends on its tree only through the
    sequence, in source order, of the bindings from [langchain_core] and the
    sequence of the lists assigned to [__all__]: where the statements are
    nested, and whether an import comes before or after [__all__], makes no
    difference. *)
Theorem analysis_by_source_order (init_file : Path) (tree1 tree2 : Module_) :
  module_bindings tree1 = module_bindings tree2 →
  module_all_assignments tree1 = module_all_assignments tree2 →
  analysis_of_tree init_file tree1 = analysis_of_tree init_file tree2.
Proof.
  intros Hb Ha. unfold analysis_of_tree. cbn zeta.
  by rewrite !visit_Module_imports, !visit_Module_exports, Hb, Ha.
Qed.

Lemma analysis_by_source_order_witness :
  analysis_of_tree ["langchain"; "__init__.py"] chains_init
  = analysis_of_tree ["langchain"; "__init__.py"] chains_late_import.
Proof.
  apply analysis_by_source_order.
  - reflexivity.
  - reflexivity.
Defined.

(** ** More on the report *)

Lemma sum_list_cons (x : nat) (l : list nat) :
  sum_list (x :: l) = x + sum_list l.
Proof. reflexivity. Qed.

Lemma reexporting_modules_le_total analysis :
  reexporting_modules analysis ≤ reexport_total analysis.
Proof.
  unfold reexporting_modules, reexport_total.
  induction analysis as [|a analysis IH]; [done|].
  cbn [map]. rewrite sum_list_cons.
  destruct (decide (exported_from_core a ≠ ∅)) as [Hne|He].
  - rewrite filter_cons_True by done. cbn [length].
    apply map_size_non_empty_iff in Hne. lia.
  - rewrite filter_cons_False by done. lia.
Qed.

Lemma reexporting_modules_zero analysis :
  reexporting_modules analysis = 0
  ↔ Forall (fun a => exported_from_core a = ∅) analysis.
Proof.
  unfold reexporting_modules.
  induction analysis as [|a analysis IH]; [by split|].
  destruct (decide (exported_from_core a ≠ ∅)) as [Hne|He].
  - rewrite filter_cons_True by done. cbn [length]. split; [done|].
    by intros [He _]%Forall_cons.
  - rewrite filter_cons_False by done. rewrite IH, Forall_cons.
    apply dec_stable in He. tauto.
Qed.

Lemma reexport_total_zero analysis :
  reexport_total analysis = 0
  ↔ Forall (fun a => exported_from_core a = ∅) analysis.
Proof.
  unfold reexport_total.
  induction analysis as [|a analysis IH]; [by split|].
  cbn [map]. rewrite sum_list_cons, Forall_cons, <- IH.
  split.
  - intros H. split; [apply map_size_empty_iff|]; lia.
  - intros [He%map_size_empty_iff H]. lia.
Qed.

(** X13: in a report, the number of modules with re-exports is at most the
    number of re-exports and at most the number of files, and the file count
    of the metadata is the number of analyses. *)
Theorem summary_bounds (w : World) (r : Report) :
  main w = Ok r →
  modules_with_core_reexports (summary r)
  ≤ total_langchain_core_reexports (summary r)
  ∧ modules_with_core_reexports (summary r) ≤ total_init_files (metadata r)
  ∧ total_init_files (metadata r) = length (analysis r).
Proof.
  intros (tmp & _ & _ & Ha & Hs & Hn)%main_report.
  rewrite Hs, summarize_totals, Hn. cbn. split; [|split].
  - apply reexporting_modules_le_total.
  - unfold reexporting_modules. etrans; [apply length_filter|].
    by rewrite Ha, length_map.
  - by rewrite Ha, length_map.
Qed.

Lemma summary_bounds_witness :
  ∃ r, main sample_world = Ok r
    ∧ modules_with_core_reexports (summary r)
      ≤ total_langchain_core_reexports (summary r)
    ∧ modules_with_core_reexports (summary r) ≤ total_init_files (metadata r)
    ∧ total_init_files (metadata r) = length (analysis r).
Proof.
  destruct (main sample_world) as [r|e] eqn:Hmain.
  - exists r. split; [reflexivity|].
    apply (summary_bounds sample_world r Hmain).
  - vm_compute in Hmain. discriminate Hmain.
Defined.

(** X14: in a report, the two counters of the summary are zero together,
    and they are zero exactly when no analysis has a re-export. *)
Theorem summary_zero (w : World) (r : Report) :
  main w = Ok r →
  (total_langchain_core_reexports (summary r) = 0
   ↔ modules_with_core_reexports (summary r) = 0)
  ∧ (modules_with_core_reexports (summary r) = 0
     ↔ Forall (fun a => exported_from_core a = ∅) (analysis r)).
Proof.
  intros (tmp & _ & _ & _ & Hs & _)%main_report.
  rewrite Hs, summarize_totals. cbn.
  by rewrite reexport_total_zero, reexporting_modules_zero.
Qed.

Lemma summary_zero_witness :
  ∃ r, main missing_world = Ok r
    ∧ (total_langchain_core_reexports (summary r) = 0
       ↔ modules_with_core_reexports (summary r) = 0)
    ∧ (modules_with_core_reexports (summary r) = 0
       ↔ Forall (fun a => exported_from_core a = ∅) (analysis r)).
Proof.
  destruct (main missing_world) as [r|e] eqn:Hmain.
  - exists r. split; [reflexivity|].
    apply (summary_zero missing_world r Hmain).
  - vm_compute in Hmain. discriminate Hmain.
Defined.

Lemma analysis_result_file w init_file :
  file (analysis_result w init_file) = path_str init_file.
Proof.
  unfold analysis_result.
  destruct (read_text w init_file) as [e|content]; [done|].
  by destruct (ast_parse w content).
Qed.

(** X15: the analyses of a report are those of the located files, one for
    each file and in the same order, each under the path of its file. *)
Theorem report_lists_located_files (w : World) (r : Report) :
  main w = Ok r →
  ∃ tmp, mkdtemp w = inr tmp
    ∧ file <$> analysis r = path_str <$> find_init_files w tmp.
Proof.
  intros (tmp & Htmp & _ & Ha & _)%main_report. exists tmp.
  split; [done|]. rewrite Ha. clear Ha.
  induction (find_init_files w tmp) as [|f l IH]; [done|].
  cbn [map]. rewrite !fmap_cons, analysis_result_file. by f_equal.
Qed.

Lemma report_lists_located_files_witness :
  ∃ r, main sample_world = Ok r
    ∧ ∃ tmp, mkdtemp sample_world = inr tmp
        ∧ file <$> analysis r = path_str <$> find_init_files sample_world tmp.
Proof.
  destruct (main sample_world) as [r|e] eqn:Hmain.
  - exists r. split; [reflexivity|].
    apply (report_lists_located_files sample_world r Hmain).
  - vm_compute in Hmain. discriminate Hmain.
Defined.

(** X16: a single export that [json.dump] cannot write (a [bytes] value, a
    complex number, [Ellipsis], an [int] beyond the limit of digits), in any
    located file, makes [main] raise, so that no report is returned whatever
    the other files hold. *)
Theorem unwritable_export_stops_main (w : World) (tmp init_file : Path)
    (a : ModuleAnalysis) (c : constant) :
  mkdtemp w = inr tmp →
  init_file ∈ find_init_files w tmp →
  analyze_init_file w init_file = Ok a →
  c ∈ all_exports a →
  json_serializable (int_max_str_digits w) c = false →
  ∃ e, main w = Raise e.
Proof.
  intros Htmp Hf Ha Hc Hbad.
  rewrite analyze_init_file_returns in Ha. injection Ha as <-.
  destruct (decide ((pip_install w tmp ["langchain"; "langchain_core"]).1
                    = 0%Z)) as [Hpip|Hpip];
    [|by apply (main_not_installed w tmp)].
  rewrite (main_installed w tmp Htmp Hpip). unfold json_dump.
  destruct (open_write w ["import_mappings.json"]) as [e|u]; [by exists e|].
  destruct (write_close w ["import_mappings.json"]) as [e|u']; [by exists e|].
  destruct (encode_error (int_max_str_digits w) _) as [e|] eqn:Henc;
    [by exists e|].
  exfalso.
  rewrite (proj1 (encode_error_None _ _) Henc (analysis_result w init_file) c)
    in Hbad; [done| |done].
  cbn [analysis report_of]. apply list_elem_of_In, in_map.
  by apply list_elem_of_In.
Qed.

Lemma unwritable_export_stops_main_witness :
  ∃ e, main binary_world = Raise e.
Proof.
  apply (unwritable_export_stops_main binary_world ["tmp"]
           ["tmp"; "langchain"; "chains"; "__init__.py"]
           (analysis_of_tree ["tmp"; "langchain"; "chains"; "__init__.py"]
              binary_all_init)
           (CBytes "raw")).
  - reflexivity.
  - right. left.
  - vm_compute. reflexivity.
  - right. left.
  - reflexivity.
Defined.

Lemma find_exported_size imports exports :
  size (find_exported imports exports) ≤ length exports.
Proof.
  unfold find_exported.
  assert (H : ∀ exported,
            size (fold_left (add_export imports) exports exported)
            ≤ size exported + length exports).
  { induction exports as [|c exports IH]; intros exported;
      cbn [fold_left length]; [lia|].
    etrans; [apply IH|].
    assert (size (add_export imports exported c) ≤ S (size exported));
      [|lia].
    destruct c as [s| | | | | | |]; cbn [add_export]; try lia.
    destruct (imports !! s); [|lia].
    destruct (exported !! s) eqn:Hs.
    - rewrite map_size_insert_Some by done. lia.
    - rewrite map_size_insert_None by done. lia. }
  specialize (H ∅). by rewrite map_size_empty in H.
Qed.

(** X17: an analysis never has more re-exports than imports, nor more
    re-exports than exports. *)
Theorem reexport_count_bounds (w : World) (init_file : Path)
    (a : ModuleAnalysis) :
  analyze_init_file w init_file = Ok a →
  size (exported_from_core a) ≤ size (langchain_core_imports a)
  ∧ size (exported_from_core a) ≤ length (all_exports a).
Proof.
  rewrite analyze_init_file_returns. intros [= <-]. split.
  - apply map_subseteq_size, map_subseteq_spec. intros k info Hk.
    by apply analysis_result_exported in Hk as [_ ?].
  - unfold analysis_result.
    destruct (read_text w init_file) as [e|content];
      [cbn; by rewrite map_size_empty|].
    destruct (ast_parse w content) as [e|tree];
      [cbn; by rewrite map_size_empty|].
    apply find_exported_size.
Qed.

Lemma reexport_count_bounds_witness :
  size (exported_from_core
          (analysis_result sample_world ["tmp"; "langchain"; "__init__.py"]))
  ≤ size (langchain_core_imports
            (analysis_result sample_world ["tmp"; "langchain"; "__init__.py"]))
  ∧ size (exported_from_core
            (analysis_result sample_world ["tmp"; "langchain"; "__init__.py"]))
    ≤ length (all_exports
                (analysis_result sample_world
                   ["tmp"; "langchain"; "__init__.py"])).
Proof.
  apply (reexport_count_bounds sample_world ["tmp"; "langchain"; "__init__.py"]).
  vm_compute. reflexivity.
Defined.

Lemma last_binding_bound k v bs :
  (k, v) ∈ bs → is_Some (last_binding k bs).
Proof.
  induction bs as [|[k' v'] bs IH]; [by intros ?%elem_of_nil|].
  cbn [last_binding]. intros [[= <- <-]|Hin]%elem_of_cons.
  - destruct (last_binding k bs); [by eexists|].
    rewrite decide_True by done. by eexists.
  - destruct (IH Hin) as [v'' ->]. by eexists.
Qed.

(** X18: the keys of the import dictionary are exactly the local names bound
    by the import-from statements that pass the test, and the pair stored
    for a key is the pair of one of its bindings. *)
Theorem imports_are_bindings (init_file : Path) (tree : Module_) (k : string) :
  (∀ v, langchain_core_imports (analysis_of_tree init_file tree) !! k = Some v →
        (k, v) ∈ module_bindings tree)
  ∧ (∀ v, (k, v) ∈ module_bindings tree →
          is_Some (langchain_core_imports (analysis_of_tree init_file tree)
                   !! k)).
Proof.
  cbn [analysis_of_tree langchain_core_imports].
  rewrite visit_Module_imports, bind_all_lookup, lookup_empty. split.
  - intros v Hv. apply last_binding_Some.
    by destruct (last_binding k (module_bindings tree)).
  - intros v Hin. destruct (last_binding_bound _ _ _ Hin) as [v' ->].
    by eexists.
Qed.

Lemma imports_are_bindings_witness :
  ("Message", ImportInfo "langchain_core.prompts" "PromptTemplate")
  ∈ module_bindings shadowing_init
  ∧ is_Some (langchain_core_imports
               (analysis_of_tree ["langchain"; "__init__.py"] shadowing_init)
             !! "BaseMessage").
Proof.
  split.
  - apply (proj1 (imports_are_bindings ["langchain"; "__init__.py"]
                    shadowing_init "Message")).
    vm_compute. reflexivity.
  - apply (proj2 (imports_are_bindings ["langchain"; "__init__.py"]
                    shadowing_init "BaseMessage")
             (ImportInfo "langchain_core.messages" "BaseMessage")).
    right. left.
Defined.

(** X19: the export list of a file is the concatenation, in source order, of
    the constants of the lists assigned to [__all__], a list counting once
    for each [__all__] among the targets of its assignment. *)
Theorem exports_in_source_order (init_file : Path) (tree : Module_) :
  all_exports (analysis_of_tree init_file tree)
  = concat (map constant_values (module_all_assignments tree)).
Proof. apply visit_Module_exports. Qed.

(** ** The selection of the navigation *)

Lemma select_item_result lower target acc item :
  match Subset.select_item lower target acc item with
  | inr acc' =>
      Subset.malformed item = false
      ∧ acc'.1
        = acc.1 ++ (if Subset.always_kept lower item
                       || Subset.requested lower target item
                    then [item] else [])
      ∧ acc'.2 = acc.2 || Subset.requested lower target item
  | inl _ => Subset.malformed item = true
  end.
Proof.
  destruct acc as [new_nav found].
  destruct item as [s|repr|items|[|[[key| | | |] value] rest]|cls];
    cbn [Subset.select_item Subset.malformed Subset.always_kept
         Subset.requested fst snd]; try done;
    try (by rewrite app_nil_r, orb_false_r).
  - destruct (substring_of target (lower s)); cbn [fst snd orb].
    + by rewrite orb_true_r.
    + by rewrite app_nil_r, orb_false_r.
  - destruct (substring_of "get started" (lower key) || Subset.is_index value);
      cbn [fst snd negb andb orb].
    + by rewrite orb_false_r.
    + destruct (substring_of target (lower key)); cbn [fst snd].
      * by rewrite orb_true_r.
      * by rewrite app_nil_r, orb_false_r.
Qed.

Lemma select_items_result lower target nav : ∀ acc,
  match Subset.select_items lower target nav acc with
  | inr (new_nav, found) =>
      Forall (fun item => Subset.malformed item = false) nav
      ∧ new_nav
        = acc.1 ++ List.filter
                     (fun item => Subset.always_kept lower item
                                  || Subset.requested lower target item) nav
      ∧ found = acc.2 || existsb (Subset.requested lower target) nav
  | inl _ => Exists (fun item => Subset.malformed item = true) nav
  end.
Proof.
  induction nav as [|item nav IH]; intros [new_nav found].
  - cbn. by rewrite app_nil_r, orb_false_r.
  - cbn [Subset.select_items].
    pose proof (select_item_result lower target (new_nav, found) item) as Hi.
    destruct (Subset.select_item lower target (new_nav, found) item)
      as [e|[new_nav' found']]; [by left|].
    destruct Hi as (Hm & Hn & Hf). cbn [fst snd] in Hn, Hf.
    specialize (IH (new_nav', found')).
    destruct (Subset.select_items lower target nav (new_nav', found'))
      as [e|[new_nav'' found'']]; [by right|].
    destruct IH as (Hms & Hn' & Hf'). cbn [fst snd] in Hn', Hf' |- *.
    split; [by constructor|]. subst. cbn [List.filter existsb].
    split; [|by rewrite orb_assoc].
    rewrite <- app_assoc. f_equal.
    by destruct (Subset.always_kept lower item
                 || Subset.requested lower target item).
Qed.

Lemma sublist_List_filter {A : Type} (f : A → bool) (l : list A) :
  List.filter f l `sublist_of` l.
Proof.
  induction l as [|x l IH]; [done|]. cbn.
  destruct (f x); by constructor.
Qed.

Lemma select_section_Selected lower section nav new_nav :
  Subset.select_section lower section nav = Subset.Selected new_nav →
  Forall (fun item => Subset.malformed item = false) nav
  ∧ new_nav
    = List.filter (fun item => Subset.always_kept lower item
                               || Subset.requested lower (lower section) item)
                  nav
  ∧ existsb (Subset.requested lower (lower section)) nav = true.
Proof.
  unfold Subset.select_section.
  pose proof (select_items_result lower (lower section) nav ([], false)) as H.
  destruct (Subset.select_items lower (lower section) nav ([], false))
    as [e|[new_nav' [|]]]; [done| |done].
  intros [= <-]. destruct H as (Hm & Hn & Hf). by cbn in Hn, Hf.
Qed.

(** X20: the navigation written out is a sub-list of the navigation read:
    top-level items of the original, unchanged and in their order. *)
Theorem selection_is_sublist (lower : string → string) (section : string)
    (nav new_nav : list Subset.yaml) :
  Subset.select_section lower section nav = Subset.Selected new_nav →
  new_nav `sublist_of` nav.
Proof.
  intros (_ & -> & _)%select_section_Selected. apply sublist_List_filter.
Qed.

Lemma selection_is_sublist_witness :
  [ Subset.YDict [(Subset.YStr "Get started", Subset.YStr "index.md")];
    Subset.YDict [(Subset.YStr "LangGraph",
                   Subset.YList [Subset.YStr "langgraph/index.md"])] ]
  `sublist_of` sample_nav.
Proof.
  apply (selection_is_sublist ascii_lower "LangGraph"). vm_compute.
  reflexivity.
Defined.

(** X21: an item whose first key holds [get started], or whose first value
    is [index.md], is in every navigation written out, whatever section was
    asked for. *)
Theorem always_kept_selected (lower : string → string) (section : string)
    (nav new_nav : list Subset.yaml) (item : Subset.yaml) :
  Subset.select_section lower section nav = Subset.Selected new_nav →
  item ∈ nav →
  Subset.always_kept lower item = true →
  item ∈ new_nav.
Proof.
  intros (_ & -> & _)%select_section_Selected Hin Hkept.
  apply list_elem_of_In, filter_In. split; [by apply list_elem_of_In|].
  by rewrite Hkept.
Qed.

Lemma always_kept_selected_witness :
  Subset.YDict [(Subset.YStr "Get started", Subset.YStr "index.md")]
  ∈ [ Subset.YDict [(Subset.YStr "Get started", Subset.YStr "index.md")];
      Subset.YDict [(Subset.YStr "Integrations",
                     Subset.YList [Subset.YStr "integrations/index.md"])] ].
Proof.
  apply (always_kept_selected ascii_lower "integrations" sample_nav).
  - vm_compute. reflexivity.
  - left.
  - reflexivity.
Defined.

(** The loop over the items: "no section found" exactly when no item raises
    and no item counts as the section asked for. *)
Lemma not_found_iff (lower : string → string) (section : string)
    (nav : list Subset.yaml) :
  Subset.select_section lower section nav = Subset.NotFound
  ↔ Forall (fun item => Subset.malformed item = false) nav
    ∧ Forall (fun item => Subset.requested lower (lower section) item = false)
             nav.
Proof.
  unfold Subset.select_section.
  pose proof (select_items_result lower (lower section) nav ([], false)) as H.
  destruct (Subset.select_items lower (lower section) nav ([], false))
    as [e|[new_nav found]].
  - split; [done|]. intros [Hm _]. exfalso.
    apply Exists_exists in H as (item & Hin & Hbad).
    rewrite Forall_forall in Hm. specialize (Hm item Hin). congruence.
  - destruct H as (Hm & _ & Hf). cbn [fst snd orb] in Hf.
    destruct found.
    + split; [done|]. intros [_ Hr]. exfalso.
      symmetry in Hf. apply existsb_exists in Hf as (item & Hin & Hreq).
      rewrite Forall_forall in Hr.
      specialize (Hr item (proj2 (list_elem_of_In _ _) Hin)). congruence.
    + split; [|done]. intros _. split; [done|].
      apply Forall_forall. intros item Hin.
      destruct (Subset.requested lower (lower section) item) eqn:Hreq; [|done].
      rewrite Hf. symmetry. apply existsb_exists. exists item.
      split; [by apply list_elem_of_In | done].
Qed.

(** The loop over the items raises exactly when some item is an empty
    dictionary or a dictionary whose first key is not a string. *)
Lemma crash_iff (lower : string → string) (section : string)
    (nav : list Subset.yaml) :
  (∃ e, Subset.select_section lower section nav = Subset.Crashed e)
  ↔ Exists (fun item => Subset.malformed item = true) nav.
Proof.
  unfold Subset.select_section.
  pose proof (select_items_result lower (lower section) nav ([], false)) as H.
  destruct (Subset.select_items lower (lower section) nav ([], false))
    as [e|[new_nav found]].
  - split; [done | by exists e].
  - destruct H as (Hm & _). split.
    + intros [e He]. by destruct found.
    + intros (item & Hin & Hbad)%Exists_exists. exfalso.
      rewrite Forall_forall in Hm. specialize (Hm item Hin). congruence.
Qed.

(** X22: the run stops with "no section found" exactly when the value of
    [nav] can be iterated, no item raises and no item counts as the section
    asked for; an item that is always kept does not count, so asking for a
    section that only such items match stops the run. *)
Theorem nav_not_found_iff (lower : string → string) (section : string)
    (original_nav : option (list Subset.yaml)) :
  Subset.select_nav lower section original_nav = Subset.NotFound
  ↔ ∃ items, original_nav = Some items
      ∧ Forall (fun item => Subset.malformed item = false) items
      ∧ Forall (fun item =>
                  Subset.requested lower (lower section) item = false) items.
Proof.
  destruct original_nav as [items|]; cbn [Subset.select_nav].
  - rewrite not_found_iff. split.
    + intros H. by exists items.
    + by intros (items' & [= <-] & H).
  - split; [done | by intros (items & ? & _)].
Qed.

Lemma nav_not_found_iff_witness :
  Subset.select_nav ascii_lower "Get Started" (Some sample_nav)
  = Subset.NotFound.
Proof.
  apply (proj2 (nav_not_found_iff ascii_lower "Get Started" (Some sample_nav))).
  exists sample_nav. split; [reflexivity|]. split; repeat constructor.
Defined.

(** X23: the loop raises exactly when the value of [nav] cannot be iterated
    (an empty [nav:], a number) or some item is an empty dictionary or a
    dictionary whose first key is not a string, even if the section asked
    for is there. *)
Theorem nav_crash_iff (lower : string → string) (section : string)
    (original_nav : option (list Subset.yaml)) :
  (∃ e, Subset.select_nav lower section original_nav = Subset.Crashed e)
  ↔ original_nav = None
    ∨ ∃ items, original_nav = Some items
        ∧ Exists (fun item => Subset.malformed item = true) items.
Proof.
  destruct original_nav as [items|]; cbn [Subset.select_nav].
  - rewrite crash_iff. split.
    + intros H. right. by exists items.
    + by intros [?|(items' & [= <-] & H)].
  - split; [by left | by eexists].
Qed.

Lemma nav_crash_iff_witness :
  (∃ e, Subset.select_nav ascii_lower "langgraph" None = Subset.Crashed e)
  ∧ (∃ e, Subset.select_nav ascii_lower "langgraph"
            (Some (sample_nav
                   ++ [Subset.YDict [(Subset.YScalar "2024",
                                      Subset.YStr "news.md")]]))
          = Subset.Crashed e).
Proof.
  split.
  - apply (proj2 (nav_crash_iff ascii_lower "langgraph" None)). by left.
  - apply (proj2 (nav_crash_iff ascii_lower "langgraph" (Some _))). right.
    eexists. split; [reflexivity|]. apply Exists_exists.
    exists (Subset.YDict [(Subset.YScalar "2024", Subset.YStr "news.md")]).
    split; [|reflexivity]. do 4 right. left.
Defined.

(** ** Modules that share the prefix of the package *)

(** C5: three statements bind [X]; the last binding from [langchain_core] is
    that of [langchain_core.b], and the pair recorded is that of
    [langchain_corex.c], which passes the prefix test without being under
    the package. *)
Theorem sibling_binding_wins :
  last_binding "X" (module_upstream_bindings sibling_shadow_init)
  = Some (ImportInfo "langchain_core.b" "X")
  ∧ langchain_core_imports
      (analysis_of_tree ["langchain"; "__init__.py"] sibling_shadow_init)
    !! "X"
    = Some (ImportInfo "langchain_corex.c" "X").
Proof. split; vm_compute; reflexivity. Qed.

(** C10: the relative import records nothing, and the statement on
    [langchain_corex.foo], whose module does not match the package, is
    recorded: the import dictionary is not empty although the module has no
    binding from [langchain_core]. *)
Theorem sibling_statement_recorded :
  in_package "langchain_core" "langchain_corex.foo" = false
  ∧ module_upstream_bindings relative_sibling_init = []
  ∧ langchain_core_imports
      (analysis_of_tree ["langchain"; "__init__.py"] relative_sibling_init)
    !! "Baz"
    = Some (ImportInfo "langchain_corex.foo" "Bar")
  ∧ langchain_core_imports
      (analysis_of_tree ["langchain"; "__init__.py"] relative_sibling_init)
    !! "helpers"
    = None.
Proof. repeat split; vm_compute; reflexivity. Qed.
